(** * DeepseekOllamaRag: the session pipeline of [backend/app/main.py]

    A shallow embedding of the FastAPI back end (and of the two helpers it
    shares with the Streamlit front end [app.py]): the process-wide
    [document_store], the handlers [upload_document], [document_status] and
    [ask_question], the background task [process_document], the input
    formatter [format_inputs], the answer-key probing and the
    reasoning/answer split.

    Conventions.
    - A Python [str] is a Rocq [string]; each character stands for one code
      point below 256.
    - The collaborators (Ollama, the PDF loader, the chunker, FAISS, the
      assembled chain, the temporary file) are not code of this repository:
      what they return or raise is an argument of the operation that calls
      them, and every call is recorded in the [trace] of the world.
    - The builtin [str] applied to a value that is not a [str] is the
      section variable [render]. *)

From Stdlib Require Import Ascii.
From stdpp Require Import base option list strings gmap fin_maps.

(** ** Python strings *)

Module PyStr.

Definition LF : ascii := "010"%char.

Definition code (c : ascii) : nat := Ascii.nat_of_ascii c.

(** [str.isspace] on one character, as [str.strip()] with no argument
    uses it: TAB..CR, FS..US, space, NEL and NBSP. *)
Definition is_space (c : ascii) : bool :=
  let n := code c in
  ((9 <=? n) && (n <=? 13)) || ((28 <=? n) && (n <=? 32))
  || (n =? 133) || (n =? 160).

(** [str.lower] on one character: A..Z and the upper-case letters of
    Latin-1 (À..Þ except the multiplication sign) move up by 32. *)
Definition lower_char (c : ascii) : ascii :=
  let n := code c in
  if ((65 <=? n) && (n <=? 90))
     || ((192 <=? n) && (n <=? 222) && negb (n =? 215))
  then Ascii.ascii_of_nat (n + 32) else c.

Fixpoint lower (s : string) : string :=
  match s with
  | EmptyString => EmptyString
  | String c s' => String (lower_char c) (lower s')
  end.

Fixpoint startswith (p s : string) : bool :=
  match p, s with
  | EmptyString, _ => true
  | String _ _, EmptyString => false
  | String a p', String b s' => bool_decide (a = b) && startswith p' s'
  end.

Definition endswith (s suffix : string) : bool :=
  startswith (String.rev suffix) (String.rev s).

(** [sub in s]. *)
Fixpoint contains (sub s : string) : bool :=
  startswith sub s ||
  match s with
  | EmptyString => false
  | String _ s' => contains sub s'
  end.

(** [s.split(sep)] for a non-empty [sep] (an empty one raises in Python;
    both call sites pass a literal).  The scan goes left to right; [skip]
    counts the characters of a matched separator still to be passed and
    [cur] holds the current piece, reversed. *)
Fixpoint split_go (sep s : string) (skip : nat) (cur : string)
  : list string :=
  match s with
  | EmptyString => [String.rev cur]
  | String c s' =>
      match skip with
      | S k => split_go sep s' k cur
      | O =>
          if startswith sep s
          then String.rev cur :: split_go sep s' (String.length sep - 1) ""
          else split_go sep s' 0 (String c cur)
      end
  end.

Definition split (sep s : string) : list string := split_go sep s 0 "".

(** [s.count(sub)]: occurrences that do not overlap, non-empty [sub]. *)
Fixpoint count_go (sub s : string) (skip : nat) : nat :=
  match s with
  | EmptyString => 0
  | String _ s' =>
      match skip with
      | S k => count_go sub s' k
      | O =>
          if startswith sub s
          then S (count_go sub s' (String.length sub - 1))
          else count_go sub s' 0
      end
  end.

Definition count (sub s : string) : nat := count_go sub s 0.

Fixpoint lstrip (s : string) : string :=
  match s with
  | EmptyString => EmptyString
  | String c s' => if is_space c then lstrip s' else s
  end.

Definition rstrip (s : string) : string :=
  String.rev (lstrip (String.rev s)).

Definition strip (s : string) : string := rstrip (lstrip s).

(** [sep.join(parts)]. *)
Fixpoint join (sep : string) (parts : list string) : string :=
  match parts with
  | [] => ""
  | [p] => p
  | p :: rest => p +:+ sep +:+ join sep rest
  end.

(** [parts[:-1]] and [parts[-1]]. *)
Definition init (parts : list string) : list string :=
  take (length parts - 1) parts.

End PyStr.

(** ** Python values and exceptions *)

(** The values a chain hands back.  A [dict] keeps its items in insertion
    order (the order [str] prints them in); its keys are strings, the only
    keys the code probes. *)
#[warnings="-register-all"]
Inductive pyval : Type :=
  | PNone
  | PInt (n : Z)
  | PStr (s : string)
  | PList (xs : list pyval)
  | PDict (items : list (string * pyval)).

Fixpoint dict_get (k : string) (items : list (string * pyval))
  : option pyval :=
  match items with
  | [] => None
  | (k', v) :: rest => if bool_decide (k' = k) then Some v else dict_get k rest
  end.

(** [k in d]. *)
Definition dict_has (k : string) (items : list (string * pyval)) : bool :=
  bool_decide (is_Some (dict_get k items)).

(** Exceptions raised inside the handlers' [try] blocks, with [str(e)]. *)
Inductive exn : Type :=
  | ValueError (msg : string)
  | KeyError (key : string)
  | IndexError (msg : string)
  | External (msg : string).

(** [str(e)].  For [KeyError] it is the [repr] of the key: the key between
    single quotes, for a key without quotes, backslashes or control
    characters, as the code's keys are. *)
Definition exn_str (e : exn) : string :=
  match e with
  | ValueError m => m
  | KeyError k => "'" +:+ k +:+ "'"
  | IndexError m => m
  | External m => m
  end.

(** Raising and sequencing inside a [try] body. *)
Global Instance exn_ret : MRet (sum exn) := λ A a, inr a.
Global Instance exn_bind : MBind (sum exn) :=
  λ A B f m, match m with inl e => inl e | inr a => f a end.

(** ** [format_inputs] (main.py 133-141, app.py 325-335) *)

Definition missing_question_key : exn :=
  ValueError "Input must contain either 'question' or 'input' key".

Definition format_inputs (inputs : gmap string pyval)
  : exn + gmap string pyval :=
  match inputs !! "question" with
  | Some question => inr {[ "question" := question ]}
  | None =>
      match inputs !! "input" with
      | Some question => inr {[ "question" := question ]}
      | None => inl missing_question_key
      end
  end.

(** ** Reasoning split (main.py 267-290) *)

(** The dict a handler returns for [QuestionResponse]: [thinking] is absent
    when the key is not set. *)
Record answer_dict : Type := AnswerDict {
  thinking : option string;
  answer : pyval
}.

Definition final_answer_delim : string :=
  String PyStr.LF (String PyStr.LF "Final Answer:").

Definition blank_line : string := String PyStr.LF (String PyStr.LF "").

(** [parts[i]] on a list. *)
Definition list_index (parts : list string) (i : nat) : exn + string :=
  match parts !! i with
  | Some p => inr p
  | None => inl (IndexError "list index out of range")
  end.

(** [paragraphs[-1]]. *)
Definition list_last (parts : list string) : exn + string :=
  match last parts with
  | Some p => inr p
  | None => inl (IndexError "list index out of range")
  end.

Definition split_reasoning (ans : pyval) : exn + answer_dict :=
  match ans with
  | PStr a =>
      if PyStr.contains final_answer_delim a then
        let parts := PyStr.split final_answer_delim a in
        p0 ← list_index parts 0;
        p1 ← list_index parts 1;
        inr {| thinking := Some (PyStr.strip p0);
               answer := PStr ("Final Answer:" +:+ PyStr.strip p1) |}
      else if 0 <? PyStr.count blank_line a then
        let paragraphs := PyStr.split blank_line a in
        lst ← list_last paragraphs;
        inr {| thinking := Some (PyStr.join blank_line (PyStr.init paragraphs));
               answer := PStr lst |}
      else inr {| thinking := None; answer := ans |}
  | _ => inr {| thinking := None; answer := ans |}
  end.

(** ** Sessions and the world (main.py 41-78) *)

Inductive status_t : Type :=
  | StNone | StUploaded | StProcessing | StCompleted | StError.

Global Instance status_eq_dec : EqDecision status_t.
Proof. solve_decision. Defined.

(** The string the code stores under ["status"]. *)
Definition status_name (st : status_t) : string :=
  match st with
  | StNone => "none"
  | StUploaded => "uploaded"
  | StProcessing => "processing"
  | StCompleted => "completed"
  | StError => "error"
  end.

(** The assembled chain: an opaque object, told apart by its identity. *)
Inductive chain : Type := Chain (id : nat).

(** The function stored under ["retrieval_chain_formatter"]; the code
    only ever stores the closure [format_inputs]. *)
Inductive formatter : Type := FormatInputs.

Definition apply_formatter (f : formatter) :
  gmap string pyval → exn + gmap string pyval :=
  match f with FormatInputs => format_inputs end.

(** The dict of one session.  [retrieval_chain_formatter] is [None] while
    the key is absent from the dict. *)
Record session : Type := Session {
  status : status_t;
  retrieval_chain : option chain;
  processor : option pyval;
  filename : option string;
  error : option string;
  retrieval_chain_formatter : option formatter
}.

Definition new_session : session :=
  {| status := StNone; retrieval_chain := None; processor := None;
     filename := None; error := None; retrieval_chain_formatter := None |}.

Definition set_status (v : status_t) (s : session) : session :=
  {| status := v; retrieval_chain := retrieval_chain s;
     processor := processor s; filename := filename s; error := error s;
     retrieval_chain_formatter := retrieval_chain_formatter s |}.

Definition set_filename (v : option string) (s : session) : session :=
  {| status := status s; retrieval_chain := retrieval_chain s;
     processor := processor s; filename := v; error := error s;
     retrieval_chain_formatter := retrieval_chain_formatter s |}.

Definition set_error (v : option string) (s : session) : session :=
  {| status := status s; retrieval_chain := retrieval_chain s;
     processor := processor s; filename := filename s; error := v;
     retrieval_chain_formatter := retrieval_chain_formatter s |}.

Definition set_retrieval_chain (v : option chain) (s : session) : session :=
  {| status := status s; retrieval_chain := v;
     processor := processor s; filename := filename s; error := error s;
     retrieval_chain_formatter := retrieval_chain_formatter s |}.

Definition set_formatter (v : option formatter) (s : session) : session :=
  {| status := status s; retrieval_chain := retrieval_chain s;
     processor := processor s; filename := filename s; error := error s;
     retrieval_chain_formatter := v |}.

(** A call to a collaborator, as the trace records it. *)
Inductive event : Type :=
  | EvHealthCheck
  | EvLoad (file_path : string)
  | EvChunk
  | EvIndex
  | EvAssemble
  | EvInvoke (c : chain) (input : gmap string pyval).

(** A pending [background_tasks.add_task(process_document, ...)]. *)
Record task : Type := Task {
  task_session_id : string;
  task_file_path : string;
  task_filename : string
}.

Record world : Type := World {
  document_store : gmap string session;
  background_tasks : list task;
  trace : list event
}.

Definition init_world : world :=
  {| document_store := ∅; background_tasks := []; trace := [] |}.

Definition with_store (f : gmap string session → gmap string session)
  (w : world) : world :=
  {| document_store := f (document_store w);
     background_tasks := background_tasks w; trace := trace w |}.

Definition with_tasks (f : list task → list task) (w : world) : world :=
  {| document_store := document_store w;
     background_tasks := f (background_tasks w); trace := trace w |}.

Definition with_trace (f : list event → list event) (w : world) : world :=
  {| document_store := document_store w;
     background_tasks := background_tasks w; trace := f (trace w) |}.

(** ** Handlers as state transformers that may raise

    The world survives a raise, as the heap does in Python. *)

Definition M (E A : Type) : Type := world → (E + A) * world.

Global Instance M_ret {E} : MRet (M E) := λ A a w, (inr a, w).
Global Instance M_bind {E} : MBind (M E) :=
  λ A B f m w,
    match m w with
    | (inl e, w') => (inl e, w')
    | (inr a, w') => f a w'
    end.

Definition raise {E A} (e : E) : M E A := λ w, (inl e, w).

Definition lift {E A} (r : E + A) : M E A := λ w, (r, w).

Definition modify {E} (f : world → world) : M E unit := λ w, (inr (), f w).

(** [try: body except Exception as e: handler e]. *)
Definition try_except {E E' A} (body : M E A) (handler : E → M E' A)
  : M E' A :=
  λ w,
    match body w with
    | (inl e, w') => handler e w'
    | (inr a, w') => (inr a, w')
    end.

(** What a handler answers with when it does not return. *)
Inductive failure : Type :=
  | HTTPException (status_code : nat) (detail : string)
  | Unhandled (e : exn).

(** [get_or_create_session_store] (main.py 68-78).  Python returns the dict
    that sits in the store; here the caller gets its current content and
    writes through [session_set] under the same key. *)
Definition get_or_create_session_store {E} (session_id : string)
  : M E session :=
  λ w,
    match document_store w !! session_id with
    | Some s => (inr s, w)
    | None => (inr new_session, with_store (insert session_id new_session) w)
    end.

(** [session[key] = v] on the dict obtained for [session_id]. *)
Definition session_set {E} (session_id : string) (f : session → session)
  : M E unit :=
  modify (with_store (alter f session_id)).

Definition log {E} (ev : event) : M E unit :=
  modify (with_trace (λ t, t ++ [ev])).

(** ** [process_document] (main.py 80-168) *)

(** What the collaborators do during one build: [None] is success, [Some m]
    an exception [e] with [str(e) = m]. *)
Record build_env : Type := BuildEnv {
  ollama_running : bool;
  load_fails : option string;
  chunk_fails : option string;
  index_fails : option string;
  assemble : string + chain
}.

(** [is_ollama_running] (main.py 60-66): every exception is turned into
    [False]. *)
Definition is_ollama_running {E} (env : build_env) : M E bool :=
  log EvHealthCheck;; mret (ollama_running env).

Definition external (ev : event) (fails : option string) : M exn unit :=
  log ev;;
  match fails with
  | Some m => raise (External m)
  | None => mret ()
  end.

Definition ollama_not_running : string :=
  "Ollama is not running. Please start Ollama before processing documents.".

Definition process_document (session_id file_path fname : string)
  (env : build_env) : M exn unit :=
  get_or_create_session_store session_id;;
  session_set session_id (set_status StProcessing);;
  session_set session_id (set_filename (Some fname));;
  try_except
    (running ← is_ollama_running env;
     if negb running then
       session_set session_id (set_status StError);;
       session_set session_id (set_error (Some ollama_not_running))
     else
       external (EvLoad file_path) (load_fails env);;
       external EvChunk (chunk_fails env);;
       external EvIndex (index_fails env);;
       log EvAssemble;;
       c ← lift (match assemble env with
                 | inl m => inl (External m)
                 | inr c => inr c
                 end);
       session_set session_id (set_formatter (Some FormatInputs));;
       session_set session_id (set_retrieval_chain (Some c));;
       session_set session_id (set_status StCompleted))
    (λ e,
       session_set session_id (set_status StError);;
       session_set session_id (set_error (Some (exn_str e)))).

(** ** [upload_document] (main.py 180-218) *)

(** The temporary file: [tempfile] is what [NamedTemporaryFile] gives
    (its name) or raises, [write_fails] what reading the upload and writing
    it out raises, if anything. *)
Record upload_io : Type := UploadIO {
  tempfile : exn + string;
  write_fails : option exn
}.

Record upload_response : Type := UploadResponse {
  up_session_id : string;
  up_status : string;
  up_message : string
}.

(** [not session_id] for the optional query parameter. *)
Definition falsy (session_id : option string) : bool :=
  match session_id with
  | None => true
  | Some s => bool_decide (s = "")
  end.

Definition is_pdf (fname : string) : bool :=
  PyStr.endswith (PyStr.lower fname) ".pdf".

Definition upload_document (session_id : option string) (fname : string)
  (io : upload_io) : M failure upload_response :=
  if falsy session_id then
    raise (HTTPException 400 "Session ID is required")
  else if negb (is_pdf fname) then
    raise (HTTPException 400 "Only PDF files are supported")
  else
    let sid := default "" session_id in
    match tempfile io with
    | inl e => raise (Unhandled e)
    | inr temp_name =>
        try_except
          (lift (E:=exn) (match write_fails io with
                          | Some e => inl e
                          | None => inr ()
                          end);;
           get_or_create_session_store sid;;
           session_set sid (set_status StUploaded);;
           modify (with_tasks (λ q, q ++ [Task sid temp_name fname]));;
           mret {| up_session_id := sid;
                   up_status := "processing";
                   up_message := "Document '" +:+ fname
                                 +:+ "' uploaded and is being processed" |})
          (λ e, raise (HTTPException 500 (exn_str e)))
    end.

(** ** [document_status] (main.py 220-229) *)

Record status_response : Type := StatusResponse {
  st_session_id : string;
  st_status : string;
  st_filename : option string;
  st_error : option string
}.

Definition document_status (session_id : string)
  : M failure status_response :=
  s ← get_or_create_session_store session_id;
  mret {| st_session_id := session_id;
          st_status := status_name (status s);
          st_filename := filename s;
          st_error := error s |}.

(** ** [ask_question] (main.py 231-295) *)

Record QuestionRequest : Type := mkQuestionRequest {
  question : string;
  session_id : string;
  include_reasoning : bool
}.

(** An optional string inside an f-string. *)
Definition fmt_opt (o : option string) : string := default "None" o.

(** [session["retrieval_chain_formatter"]]. *)
Definition formatter_of (s : session) : exn + formatter :=
  match retrieval_chain_formatter s with
  | Some f => inr f
  | None => inl (KeyError "retrieval_chain_formatter")
  end.

Section Builtins.

(** [str(v)] for a value that is not a [str]. *)
Variable render : pyval → string.

Definition py_str (v : pyval) : string :=
  match v with
  | PStr s => s
  | _ => render v
  end.

(** Answer extraction (main.py 251-264, app.py 463-479). *)
Definition extract_answer (response : pyval) : pyval :=
  match response with
  | PDict items =>
      if dict_has "answer" items then
        default PNone (dict_get "answer" items)
      else if dict_has "result" items then
        default PNone (dict_get "result" items)
      else if dict_has "output" items then
        default PNone (dict_get "output" items)
      else if dict_has "response" items then
        default PNone (dict_get "response" items)
      else PStr (py_str response)
  | _ => PStr (py_str response)
  end.

(** [invoke_result] is what [chain.invoke] returns or raises when it is
    called. *)
Definition ask_question (request : QuestionRequest)
  (invoke_result : exn + pyval) : M failure answer_dict :=
  s ← get_or_create_session_store (session_id request);
  if negb (bool_decide (status s = StCompleted)) then
    if bool_decide (status s = StError) then
      raise (HTTPException 400
               ("Error processing document: " +:+ fmt_opt (error s)))
    else
      raise (HTTPException 400 "Document processing not completed")
  else
    match retrieval_chain s with
    | None =>
        raise (HTTPException 400
                 "No document has been processed for this session")
    | Some c =>
        try_except
          (fm ← lift (formatter_of s);
           formatted_input ←
             lift (apply_formatter fm {[ "input" := PStr (question request) ]});
           log (EvInvoke c formatted_input);;
           response ← lift invoke_result;
           let ans := extract_answer response in
           if include_reasoning request then lift (split_reasoning ans)
           else mret {| thinking := None; answer := ans |})
          (λ e,
             raise (HTTPException 500
                      ("Error processing question: " +:+ exn_str e)))
    end.

(** ** Operation sequences *)

Inductive op : Type :=
  | OpUpload (sid : option string) (fname : string) (io : upload_io)
  | OpRunTask (i : nat) (env : build_env)
  | OpStatus (sid : string)
  | OpAsk (request : QuestionRequest) (invoke_result : exn + pyval).

(** The event loop runs the [i]-th pending background task to its end. *)
Definition run_task (i : nat) (env : build_env) (w : world) : world :=
  match background_tasks w !! i with
  | None => w
  | Some t =>
      snd (process_document (task_session_id t) (task_file_path t)
             (task_filename t) env (with_tasks (delete i) w))
  end.

Definition step (o : op) (w : world) : world :=
  match o with
  | OpUpload sid fname io => snd (upload_document sid fname io w)
  | OpRunTask i env => run_task i env w
  | OpStatus sid => snd (document_status sid w)
  | OpAsk request invoke_result => snd (ask_question request invoke_result w)
  end.

Fixpoint run (ops : list op) (w : world) : world :=
  match ops with
  | [] => w
  | o :: ops' => run ops' (step o w)
  end.

End Builtins.

(** ** Views used by the proofs *)

(** The store once [get_or_create_session_store] has run for [sid], and
    the content of the dict it hands out. *)
Definition touch (sid : string) (m : gmap string session)
  : gmap string session :=
  match m !! sid with
  | Some _ => m
  | None => <[sid := new_session]> m
  end.

Definition current (sid : string) (m : gmap string session) : session :=
  default new_session (m !! sid).

(** The collaborator calls one build makes after the health check, and how
    the build ends: with the message of the first failure, or the chain. *)
Definition build_events (file_path : string) (env : build_env)
  : list event :=
  if negb (ollama_running env) then []
  else match load_fails env with
  | Some _ => [EvLoad file_path]
  | None =>
  match chunk_fails env with
  | Some _ => [EvLoad file_path; EvChunk]
  | None =>
  match index_fails env with
  | Some _ => [EvLoad file_path; EvChunk; EvIndex]
  | None => [EvLoad file_path; EvChunk; EvIndex; EvAssemble]
  end end end.

Definition build_result (env : build_env) : string + chain :=
  if negb (ollama_running env) then inl ollama_not_running
  else match load_fails env with
  | Some m => inl m
  | None =>
  match chunk_fails env with
  | Some m => inl m
  | None =>
  match index_fails env with
  | Some m => inl m
  | None => assemble env
  end end end.

(** The net effect of [process_document] on the session's dict. *)
Definition process_session (fname : string) (env : build_env) (s : session)
  : session :=
  let s1 := set_filename (Some fname) (set_status StProcessing s) in
  match build_result env with
  | inl m => set_error (Some m) (set_status StError s1)
  | inr c =>
      set_status StCompleted
        (set_retrieval_chain (Some c)
           (set_formatter (Some FormatInputs) s1))
  end.

(** The task an upload schedules, when it gets that far. *)
Definition upload_accepted (session_id : option string) (fname : string)
  (io : upload_io) : option task :=
  if falsy session_id || negb (is_pdf fname) then None
  else match tempfile io, write_fails io with
  | inr temp_name, None => Some (Task (default "" session_id) temp_name fname)
  | _, _ => None
  end.

(** The operation is an upload that names session [k]. *)
Definition uploads_to (k : string) (o : op) : bool :=
  match o with
  | OpUpload (Some k') _ _ => bool_decide (k' = k)
  | _ => false
  end.

(** The detail of the 400 that [ask_question] raises for a session that is
    not completed. *)
Definition not_ready_detail (s : session) : string :=
  if bool_decide (status s = StError)
  then "Error processing document: " +:+ fmt_opt (error s)
  else "Document processing not completed".

(** The spec's wording for that detail: it shows the current status, or
    the error stored by an earlier build. *)
Definition carries_status_or_error (s : session) (detail : string) : Prop :=
  PyStr.contains (status_name (status s)) detail = true
  ∨ (∃ e, error s = Some e ∧ PyStr.contains e detail = true).

(** The mapping holds exactly one of the two keys, with value [v]. *)
Definition exactly_one_key (inputs : gmap string pyval) (v : pyval) : Prop :=
  (inputs !! "question" = Some v ∧ inputs !! "input" = None)
  ∨ (inputs !! "question" = None ∧ inputs !! "input" = Some v).

(** The spec's wording: the keys in their fixed order, and the value of
    the first one that the mapping holds. *)
Definition answer_keys : list string :=
  ["answer"; "result"; "output"; "response"].

Fixpoint first_present (keys : list string) (items : list (string * pyval))
  : option pyval :=
  match keys with
  | [] => None
  | k :: keys' =>
      match dict_get k items with
      | Some v => Some v
      | None => first_present keys' items
      end
  end.

Definition extract_answer_spec (render : pyval → string) (response : pyval)
  : pyval :=
  match response with
  | PDict items =>
      default (PStr (render response)) (first_present answer_keys items)
  | _ => PStr (py_str render response)
  end.

Definition example_delimited : string :=
  "step1" +:+ blank_line +:+ "Final Answer: X".

Definition example_paragraphs : string :=
  "p1" +:+ blank_line +:+ "p2" +:+ blank_line +:+ "p3".

Definition example_delimited_paragraphs : string :=
  "p1" +:+ blank_line +:+ "p2" +:+ blank_line +:+ "Final Answer: X".

(** The spec's wording for the upload check: the file name ends in
    [.pdf], whatever the case of the three letters. *)
Definition either (x lo up : ascii) : bool :=
  bool_decide (x = lo) || bool_decide (x = up).

Definition ends_with_pdf_ci (fname : string) : bool :=
  match String.rev fname with
  | String c (String b (String a (String dot _))) =>
      either c "f" "F" && either b "d" "D" && either a "p" "P"
      && bool_decide (dot = "."%char)
  | _ => false
  end.

(** ** The state machine of one session *)

(** What one operation can do to the dict of a session: nothing, the
    write of an accepted upload, or the writes of one build. *)
Inductive session_step : session → session → Prop :=
  | ss_same s : session_step s s
  | ss_upload s : session_step s (set_status StUploaded s)
  | ss_process fname env s : session_step s (process_session fname env s).

(** A completed session holds its chain and its formatter. *)
Definition ready_if_completed (s : session) : Prop :=
  status s = StCompleted →
  is_Some (retrieval_chain s) ∧ is_Some (retrieval_chain_formatter s).

(** Session [k] had status completed after some prefix of [ops]. *)
Definition completed_before (render : pyval → string) (ops : list op)
  (k : string) : Prop :=
  ∃ ops1 ops2 s1,
    ops = ops1 ++ ops2
    ∧ document_store (run render ops1 init_world) !! k = Some s1
    ∧ status s1 = StCompleted.

(** ** Sample inputs for the concrete cases *)

Definition sample_render (v : pyval) : string := "<object>".

Definition sample_io : upload_io :=
  {| tempfile := inr "/tmp/tmpk3v9.pdf"; write_fails := None |}.

Definition ollama_down : build_env :=
  {| ollama_running := false; load_fails := None; chunk_fails := None;
     index_fails := None; assemble := inr (Chain 1) |}.

Definition build_ok : build_env :=
  {| ollama_running := true; load_fails := None; chunk_fails := None;
     index_fails := None; assemble := inr (Chain 1) |}.

(** One accepted upload for session ["s"], its build still pending. *)
Definition uploaded_world : world :=
  snd (upload_document (Some "s") "a.pdf" sample_io init_world).

(** Upload, successful build, and a second upload for the same session. *)
Definition reupload_ops : list op :=
  [OpUpload (Some "s") "a.pdf" sample_io;
   OpRunTask 0 build_ok;
   OpUpload (Some "s") "b.pdf" sample_io].

(** The dict of session ["s"] after [reupload_ops]. *)
Definition reuploaded_session : session :=
  {| status := StUploaded; retrieval_chain := Some (Chain 1);
     processor := None; filename := Some "a.pdf"; error := None;
     retrieval_chain_formatter := Some FormatInputs |}.

(** Upload and successful build of session ["s"], and its dict then. *)
Definition completed_ops : list op :=
  [OpUpload (Some "s") "a.pdf" sample_io; OpRunTask 0 build_ok].

Definition completed_session : session :=
  {| status := StCompleted; retrieval_chain := Some (Chain 1);
     processor := None; filename := Some "a.pdf"; error := None;
     retrieval_chain_formatter := Some FormatInputs |}.

(** [s[k:]]. *)
Fixpoint string_drop (k : nat) (s : string) : string :=
  match k, s with
  | S k', String _ s' => string_drop k' s'
  | _, _ => s
  end.

(** The query the assembled chain hands to the retriever (main.py 146-148,
    app.py 340-342): [x.get("question", x.get("input", ""))]. *)
Definition retrieval_query (x : gmap string pyval) : pyval :=
  default (default (PStr "") (x !! "input")) (x !! "question").

(** The session an operation works on, if any: the id of the request, or
    of the pending task that is run. *)
Definition op_session (o : op) (w : world) : option string :=
  match o with
  | OpUpload sid _ _ => sid
  | OpRunTask i _ => task_session_id <$> background_tasks w !! i
  | OpStatus sid => Some sid
  | OpAsk request _ => Some (session_id request)
  end.

(** The calls one build can make to its collaborators, in source order. *)
Definition build_calls (file_path : string) : list event :=
  [EvHealthCheck; EvLoad file_path; EvChunk; EvIndex; EvAssemble].

(** An upload that passes every check and is stored under [temp_name]. *)
Definition stored_as (temp_name : string) : upload_io :=
  {| tempfile := inr temp_name; write_fails := None |}.

(** The eight spellings of the extension that the upload check accepts. *)
Definition pdf_extensions : list string :=
  [".pdf"; ".pdF"; ".pDf"; ".pDF"; ".Pdf"; ".PdF"; ".PDf"; ".PDF"].

(** ** The Streamlit front end (app.py)

    One run of the script, from top to bottom, as a function of what the
    user and the collaborators do during the run and of
    [st.session_state] as the previous run left it.  The calls that only
    draw ([st.markdown], [st.error], [st.success], ...) write no state and
    are left out. *)

Module App.

Inductive role_t : Type := User | Assistant | System.

(** One entry of [st.session_state.messages]. *)
Record message : Type := Message {
  role : role_t;
  content : pyval
}.

(** A call to a collaborator during a run. *)
Inductive call : Type :=
  | CallHealth
  | CallSave
  | CallLoad
  | CallChunk
  | CallIndex
  | CallLLM
  | CallAssemble
  | CallInvoke (c : chain) (input : gmap string pyval).

(** [st.session_state], with the calls made so far.  [formatter] is
    [None] while the attribute [retrieval_chain_formatter] is not set. *)
Record state : Type := State {
  messages : list message;
  retrieval_chain : option chain;
  formatter : option formatter;
  document_processed : bool;
  debug_mode : bool;
  should_rerun : bool;
  calls : list call
}.

(** The defaults of lines 43-52. *)
Definition init_state : state :=
  {| messages := []; retrieval_chain := None; formatter := None;
     document_processed := false; debug_mode := false;
     should_rerun := false; calls := [] |}.

Definition push (m : message) (st : state) : state :=
  {| messages := messages st ++ [m];
     retrieval_chain := retrieval_chain st; formatter := formatter st;
     document_processed := document_processed st;
     debug_mode := debug_mode st; should_rerun := should_rerun st;
     calls := calls st |}.

Definition record (c : call) (st : state) : state :=
  {| messages := messages st;
     retrieval_chain := retrieval_chain st; formatter := formatter st;
     document_processed := document_processed st;
     debug_mode := debug_mode st; should_rerun := should_rerun st;
     calls := calls st ++ [c] |}.

Definition set_debug_mode (v : bool) (st : state) : state :=
  {| messages := messages st;
     retrieval_chain := retrieval_chain st; formatter := formatter st;
     document_processed := document_processed st;
     debug_mode := v; should_rerun := should_rerun st;
     calls := calls st |}.

Definition set_should_rerun (v : bool) (st : state) : state :=
  {| messages := messages st;
     retrieval_chain := retrieval_chain st; formatter := formatter st;
     document_processed := document_processed st;
     debug_mode := debug_mode st; should_rerun := v;
     calls := calls st |}.

Definition set_document_processed (v : bool) (st : state) : state :=
  {| messages := messages st;
     retrieval_chain := retrieval_chain st; formatter := formatter st;
     document_processed := v;
     debug_mode := debug_mode st; should_rerun := should_rerun st;
     calls := calls st |}.

(** Lines 357-358: the formatter and the chain are stored together. *)
Definition store_chain (c : chain) (st : state) : state :=
  {| messages := messages st;
     retrieval_chain := Some c; formatter := Some FormatInputs;
     document_processed := document_processed st;
     debug_mode := debug_mode st; should_rerun := should_rerun st;
     calls := calls st |}.

Definition DQ : string := String "034"%char "".

Definition fence : string := "```".

Definition LFs : string := String PyStr.LF "".

(** The warning of lines 55-59; its sign is written in UTF-8. *)
Definition ollama_warning : string :=
  "⚠️ Warning: Ollama is not running. Please start Ollama before processing documents.".

(** [f'<div class="status-indicator error">{text}</div>']. *)
Definition error_div (text : string) : string :=
  "<div class=" +:+ DQ +:+ "status-indicator error" +:+ DQ +:+ ">"
  +:+ text +:+ "</div>".

(** The system message of an [except Exception as e] block. *)
Definition error_message (e : exn) : message :=
  Message System (PStr (error_div ("Error: " +:+ exn_str e))).

(** The extra system message of debug mode; [tb] is what
    [traceback.format_exc()] gives. *)
Definition traceback_message (tb : string) : message :=
  Message System
    (PStr (error_div "Debug Error:" +:+ LFs +:+ fence +:+ LFs +:+ tb
           +:+ LFs +:+ fence)).

(** The handler of both [except Exception as e] blocks (370-384,
    485-499). *)
Definition on_error (e : exn) (tb : string) (st : state) : state :=
  let st := push (error_message e) st in
  let st := set_should_rerun true st in
  if debug_mode st then push (traceback_message tb) st else st.

(** *** Processing an uploaded document (lines 262-384) *)

(** What the collaborators do while a document is processed: the steps
    shared with the back end, writing [temp.pdf], and the constructor of
    the model client ([None] is success, [Some m] an exception with
    message [m]). *)
Record build : Type := Build {
  steps : build_env;
  save_fails : option string;
  llm_fails : option string
}.

Definition processed_message (name : string) : message :=
  Message System
    (PStr ("Document '" +:+ name
           +:+ "' has been processed successfully. You can now ask questions about it.")).

(** The steps up to the vector store (lines 272-288); a failing call is
    recorded before it raises. *)
Definition index_document (b : build) (st : state) : (exn + unit) * state :=
  let st := record CallSave st in
  match save_fails b with
  | Some m => (inl (External m), st)
  | None =>
  let st := record CallLoad st in
  match load_fails (steps b) with
  | Some m => (inl (External m), st)
  | None =>
  let st := record CallChunk st in
  match chunk_fails (steps b) with
  | Some m => (inl (External m), st)
  | None =>
  let st := record CallIndex st in
  match index_fails (steps b) with
  | Some m => (inl (External m), st)
  | None => (inr (), st)
  end end end end.

(** The result is the state and whether [st.stop()] ended the run. *)
Definition process_block (uploaded_file : option string) (b : build)
  (tb : string) (st : state) : state * bool :=
  match uploaded_file with
  | None => (st, false)
  | Some name =>
      if document_processed st then (st, false)
      else
        let st := record CallHealth st in
        if negb (ollama_running (steps b)) then (st, false)
        else
          match index_document b st with
          | (inl e, st) => (on_error e tb st, false)
          | (inr _, st) =>
              let st := record CallLLM st in
              match llm_fails b with
              | Some _ => (set_document_processed false st, true)
              | None =>
                  let st := record CallAssemble st in
                  match assemble (steps b) with
                  | inl m => (on_error (External m) tb st, false)
                  | inr c =>
                      let st := store_chain c st in
                      let st := set_document_processed true st in
                      (push (processed_message name) st, false)
                  end
              end
          end
  end.

(** *** Asking a question (lines 427-503) *)

Definition missing_variables : string :=
  "Input to PromptTemplate is missing variables".

Definition no_document_reply : message :=
  Message Assistant (PStr "Please upload and process a document first.").

(** [chain.invoke(input)], with what it returns or raises. *)
Definition invoke (c : chain) (input : gmap string pyval)
  (result : exn + pyval) (st : state) : (exn + pyval) * state :=
  (result, record (CallInvoke c input) st).

(** The inner [try] with its [except] (lines 434-447). *)
Definition get_response (c : chain) (user_input : string)
  (first second : exn + pyval) (st : state) : (exn + pyval) * state :=
  let attempt1 :=
    match formatter st with
    | Some fm =>
        match apply_formatter fm {[ "input" := PStr user_input ]} with
        | inl e => (inl e, st)
        | inr formatted_input => invoke c formatted_input first st
        end
    | None => invoke c {[ "question" := PStr user_input ]} first st
    end in
  match attempt1 with
  | (inr response, st) => (inr response, st)
  | (inl chain_error, st) =>
      if PyStr.contains missing_variables (exn_str chain_error)
      then invoke c {[ "input" := PStr user_input ]} second st
      else (inl chain_error, st)
  end.

Section Builtins.

(** [str(v)] for a value that is not a [str], and the text debug mode
    builds from a response (its type, its keys and [json.dumps] of it). *)
Variable render : pyval → string.
Variable describe : pyval → string.

Definition debug_message (response : pyval) : message :=
  Message System
    (PStr ("Debug Info:" +:+ LFs +:+ fence +:+ LFs +:+ describe response
           +:+ LFs +:+ fence)).

Definition question_block (submit_button : bool) (user_input : string)
  (first second : exn + pyval) (tb : string) (st : state) : state :=
  if submit_button && negb (bool_decide (user_input = "")) then
    let st := push (Message User (PStr user_input)) st in
    match retrieval_chain st with
    | Some c =>
        match get_response c user_input first second st with
        | (inr response, st) =>
            let st :=
              if debug_mode st then push (debug_message response) st
              else st in
            let ai_response := extract_answer render response in
            let st := push (Message Assistant ai_response) st in
            set_should_rerun true st
        | (inl e, st) => on_error e tb st
        end
    | None =>
        let st := push no_document_reply st in
        set_should_rerun true st
    end
  else st.

(** *** One run of the script *)

(** What the user and the collaborators do during one run. *)
Record inputs : Type := Inputs {
  ollama_up : bool;
  debug_checkbox : bool;
  uploaded_file : option string;
  build_of : build;
  submit_button : bool;
  user_input : string;
  first_invoke : exn + pyval;
  second_invoke : exn + pyval;
  traceback : string
}.

(** How a run ends: at the bottom of the script, with [st.rerun()], or
    with [st.stop()]. *)
Inductive outcome : Type := Done | Rerun | Stopped.

Definition script_run (i : inputs) (st0 : option state) : state * outcome :=
  let st := default init_state st0 in
  let st := record CallHealth st in
  let st :=
    if negb (ollama_up i) then push (Message System (PStr ollama_warning)) st
    else st in
  let st := set_debug_mode (debug_checkbox i) st in
  match process_block (uploaded_file i) (build_of i) (traceback i) st with
  | (st, true) => (st, Stopped)
  | (st, false) =>
      let st :=
        question_block (submit_button i) (user_input i) (first_invoke i)
          (second_invoke i) (traceback i) st in
      if should_rerun st then (set_should_rerun false st, Rerun)
      else (st, Done)
  end.

(** The state after a sequence of runs in one browser session. *)
Fixpoint script_runs (runs : list inputs) (st0 : option state)
  : option state :=
  match runs with
  | [] => st0
  | i :: runs' => script_runs runs' (Some (fst (script_run i st0)))
  end.

End Builtins.

End App.

(** ** Views of the front end used by the proofs *)

(** Between two runs: a document counts as processed exactly when a chain
    is stored, a stored chain comes with its formatter, and no rerun is
    pending. *)
Definition app_consistent (s : App.state) : Prop :=
  (App.document_processed s = true ↔ is_Some (App.retrieval_chain s))
  ∧ (is_Some (App.retrieval_chain s) → is_Some (App.formatter s))
  ∧ App.should_rerun s = false.

(** The message of the first failure that the [except] block of the
    processing block catches: saving, loading, chunking, indexing, or,
    when the model client could be built, assembling the chain. *)
Definition caught_failure (b : App.build) : option string :=
  match App.save_fails b with
  | Some m => Some m
  | None =>
  match load_fails (App.steps b) with
  | Some m => Some m
  | None =>
  match chunk_fails (App.steps b) with
  | Some m => Some m
  | None =>
  match index_fails (App.steps b) with
  | Some m => Some m
  | None =>
  match App.llm_fails b with
  | Some _ => None
  | None =>
  match assemble (App.steps b) with
  | inl m => Some m
  | inr _ => None
  end end end end end end.

Definition sample_describe (v : pyval) : string := "<response>".

(** A run in which a document is uploaded and the loader fails. *)
Definition failing_upload_run : App.inputs :=
  {| App.ollama_up := true; App.debug_checkbox := false;
     App.uploaded_file := Some "a.pdf";
     App.build_of :=
       {| App.steps :=
            {| ollama_running := true; load_fails := Some "not a PDF";
               chunk_fails := None; index_fails := None;
               assemble := inr (Chain 1) |};
          App.save_fails := None; App.llm_fails := None |};
     App.submit_button := false; App.user_input := "";
     App.first_invoke := inr (PStr ""); App.second_invoke := inr (PStr "");
     App.traceback := "" |}.

(** A run in which a document is uploaded and processed. *)
Definition good_upload_run : App.inputs :=
  {| App.ollama_up := true; App.debug_checkbox := false;
     App.uploaded_file := Some "a.pdf";
     App.build_of :=
       {| App.steps := build_ok;
          App.save_fails := None; App.llm_fails := None |};
     App.submit_button := false; App.user_input := "";
     App.first_invoke := inr (PStr ""); App.second_invoke := inr (PStr "");
     App.traceback := "" |}.

(** A run with Ollama down in which a question is sent. *)
Definition question_run : App.inputs :=
  {| App.ollama_up := false; App.debug_checkbox := false;
     App.uploaded_file := Some "b.pdf";
     App.build_of :=
       {| App.steps := ollama_down;
          App.save_fails := None; App.llm_fails := None |};
     App.submit_button := true; App.user_input := "what is it about?";
     App.first_invoke := inr (PDict [("answer", PStr "A")]);
     App.second_invoke := inr (PStr "");
     App.traceback := "" |}.

(** The state after [good_upload_run] in a fresh browser session. *)
Definition processed_state : App.state :=
  fst (App.script_run sample_render sample_describe good_upload_run None).

(** * Properties *)

(** ** Closed forms of the handlers *)

Ltac run_handler :=
  cbv [mbind M_bind mret M_ret try_except is_ollama_running log modify
       session_set external raise lift with_store with_trace with_tasks
       document_store background_tasks trace fst snd].

Lemma get_or_create_eq {E} sid w :
  get_or_create_session_store (E:=E) sid w
  = (inr (current sid (document_store w)), with_store (touch sid) w).
Proof.
  unfold get_or_create_session_store, current, touch, with_store.
  destruct w as [m q t]; simpl. destruct (m !! sid); reflexivity.
Qed.

Lemma touch_lookup sid m : touch sid m !! sid = Some (current sid m).
Proof.
  unfold touch, current. destruct (m !! sid) eqn:E; simpl.
  - exact E.
  - apply lookup_insert_eq.
Qed.

Lemma touch_lookup_ne sid k m : sid ≠ k → touch sid m !! k = m !! k.
Proof.
  intros Hne. unfold touch. destruct (m !! sid); [reflexivity |].
  by apply lookup_insert_ne.
Qed.

Lemma process_document_eq sid path fname env w :
  process_document sid path fname env w
  = (inr (),
     {| document_store :=
          alter (process_session fname env) sid (touch sid (document_store w));
        background_tasks := background_tasks w;
        trace := trace w ++ EvHealthCheck :: build_events path env |}).
Proof.
  unfold process_document, mbind at 1, M_bind at 1. rewrite get_or_create_eq.
  destruct w as [m q t].
  destruct env as [[|] [l|] [c|] [i|] [a|a]];
    run_handler;
    cbv [build_events build_result process_session ollama_running
         load_fails chunk_fails index_fails assemble negb exn_str];
    rewrite ?alter_alter_eq, <- ?(assoc_L (++)); reflexivity.
Qed.

Lemma upload_document_world sid fname io w :
  snd (upload_document sid fname io w)
  = match upload_accepted sid fname io with
    | Some t =>
        {| document_store :=
             alter (set_status StUploaded) (task_session_id t)
               (touch (task_session_id t) (document_store w));
           background_tasks := background_tasks w ++ [t];
           trace := trace w |}
    | None => w
    end.
Proof.
  unfold upload_document, upload_accepted.
  destruct (falsy sid); [reflexivity |].
  destruct (is_pdf fname); [| reflexivity]. simpl.
  destruct io as [[e | temp_name] [e' |]]; simpl; try reflexivity.
  unfold try_except, mbind at 1, M_bind at 1, lift at 1.
  unfold mbind at 1, M_bind at 1. rewrite get_or_create_eq.
  destruct w as [m q t]. reflexivity.
Qed.

Lemma document_status_eq sid w :
  document_status sid w
  = (inr {| st_session_id := sid;
            st_status := status_name (status (current sid (document_store w)));
            st_filename := filename (current sid (document_store w));
            st_error := error (current sid (document_store w)) |},
     with_store (touch sid) w).
Proof.
  unfold document_status, mbind, M_bind. rewrite get_or_create_eq.
  reflexivity.
Qed.

Lemma ask_question_not_ready render request out w :
  status (current (session_id request) (document_store w)) ≠ StCompleted →
  ask_question render request out w
  = (inl (HTTPException 400
            (not_ready_detail (current (session_id request) (document_store w)))),
     with_store (touch (session_id request)) w).
Proof.
  intros Hst. unfold ask_question, mbind at 1, M_bind at 1.
  rewrite get_or_create_eq. unfold not_ready_detail.
  rewrite (bool_decide_eq_false_2 _ Hst). simpl.
  destruct (bool_decide _); reflexivity.
Qed.

Lemma ask_question_ready render request out w c f :
  status (current (session_id request) (document_store w)) = StCompleted →
  retrieval_chain (current (session_id request) (document_store w)) = Some c →
  retrieval_chain_formatter (current (session_id request) (document_store w))
  = Some f →
  ask_question render request out w
  = (match out with
     | inl e =>
         inl (HTTPException 500 ("Error processing question: " +:+ exn_str e))
     | inr response =>
         if include_reasoning request then
           match split_reasoning (extract_answer render response) with
           | inl e =>
               inl (HTTPException 500
                      ("Error processing question: " +:+ exn_str e))
           | inr r => inr r
           end
         else inr {| thinking := None;
                     answer := extract_answer render response |}
     end,
     with_trace
       (λ t, t ++ [EvInvoke c {[ "question" := PStr (question request) ]}])
       (with_store (touch (session_id request)) w)).
Proof.
  intros Hst Hc Hf. unfold ask_question, mbind at 1, M_bind at 1.
  rewrite get_or_create_eq, Hst, Hc. simpl.
  unfold formatter_of. rewrite Hf. destruct f.
  destruct w as [m q t]. destruct out as [e | response]; [reflexivity |].
  run_handler. cbn.
  destruct (include_reasoning request); [| reflexivity].
  destruct (split_reasoning _); reflexivity.
Qed.


(** ** The input formatter *)

(** C2: on a mapping with exactly one of the keys [question] and [input],
    [format_inputs] returns the mapping [{question: v}] for that key's value
    [v]; on a mapping with neither key it raises the [ValueError] that the
    spec calls MissingQuestionKey.  The function is pure: its result is
    decided by the mapping alone, it takes no world and gives none back. *)
Theorem format_inputs_contract (inputs : gmap string pyval) :
  (∀ v, exactly_one_key inputs v →
        format_inputs inputs = inr {[ "question" := v ]})
  ∧ (inputs !! "question" = None → inputs !! "input" = None →
     format_inputs inputs = inl missing_question_key).
Proof.
  unfold format_inputs. split.
  - intros v [[Hq _] | [Hq Hi]]; rewrite Hq, ?Hi; reflexivity.
  - intros Hq Hi. rewrite Hq, Hi. reflexivity.
Qed.

Lemma format_inputs_contract_witness :
  format_inputs {[ "question" := PStr "X" ]} = inr {[ "question" := PStr "X" ]}
  ∧ format_inputs {[ "input" := PStr "X" ]} = inr {[ "question" := PStr "X" ]}
  ∧ format_inputs ∅ = inl missing_question_key.
Proof.
  split; [| split].
  - apply (proj1 (format_inputs_contract _)). left. split; reflexivity.
  - apply (proj1 (format_inputs_contract _)). right. split; reflexivity.
  - apply (proj2 (format_inputs_contract _)); reflexivity.
Defined.

(** C10: when both keys are present the value under [question] wins. *)
Theorem format_inputs_question_first (inputs : gmap string pyval)
  (q i : pyval) :
  inputs !! "question" = Some q → inputs !! "input" = Some i →
  format_inputs inputs = inr {[ "question" := q ]}.
Proof. intros Hq _. unfold format_inputs. rewrite Hq. reflexivity. Qed.

Lemma format_inputs_question_first_witness :
  format_inputs {[ "input" := PStr "I"; "question" := PStr "Q" ]}
  = inr {[ "question" := PStr "Q" ]}.
Proof.
  apply (format_inputs_question_first _ (PStr "Q") (PStr "I")); reflexivity.
Defined.

(** ** Answer extraction *)

Lemma dict_has_get k items :
  dict_has k items = true → ∃ v, dict_get k items = Some v.
Proof.
  unfold dict_has. intros H%bool_decide_eq_true. destruct H as [v Hv]. eauto.
Qed.

Lemma dict_has_not k items :
  dict_has k items = false → dict_get k items = None.
Proof.
  unfold dict_has. intros H%bool_decide_eq_false.
  destruct (dict_get k items) eqn:E; [| reflexivity].
  exfalso. apply H. eauto.
Qed.

(** C3: the code probes [answer], [result], [output], [response] in that
    order and returns the value of the first key present; a mapping with
    none of them, and a result that is no mapping, give the string
    rendering of the whole result.  The three cases the spec lists are
    instances. *)
Theorem extract_answer_priority (render : pyval → string) :
  (∀ response,
      extract_answer render response = extract_answer_spec render response)
  ∧ extract_answer render (PDict [("result", PStr "A")]) = PStr "A"
  ∧ extract_answer render (PDict [("answer", PStr "A"); ("result", PStr "B")])
    = PStr "A"
  ∧ extract_answer render (PDict [("foo", PStr "A")])
    = PStr (render (PDict [("foo", PStr "A")])).
Proof.
  split; [| repeat split; reflexivity].
  intros [ | | | | items]; try reflexivity.
  unfold extract_answer, extract_answer_spec, answer_keys, first_present.
  repeat match goal with
  | |- context [dict_has ?k items] =>
      let E := fresh "E" in
      destruct (dict_has k items) eqn:E;
      [ apply dict_has_get in E as [? ->]; reflexivity
      | apply dict_has_not in E; rewrite E ]
  end.
  reflexivity.
Qed.

(** ** The reasoning split *)

Lemma split_go_cons sep s k cur :
  ∃ p rest, PyStr.split_go sep s k cur = p :: rest.
Proof.
  revert k cur. induction s as [| c s IH]; intros k cur; simpl.
  - eauto.
  - destruct k as [| k]; [| apply IH].
    destruct (PyStr.startswith sep (String c s)); [eauto | apply IH].
Qed.

Lemma startswith_empty_r sep : PyStr.startswith sep "" = true → sep = "".
Proof. destruct sep; [reflexivity | discriminate]. Qed.

(** A text that contains a non-empty separator splits into two pieces at
    least, so [parts[0]] and [parts[1]] both exist. *)
Lemma split_contains sep s :
  sep ≠ "" → PyStr.contains sep s = true →
  ∃ p0 p1 rest, PyStr.split sep s = p0 :: p1 :: rest.
Proof.
  intros Hsep. unfold PyStr.split. generalize EmptyString as cur.
  induction s as [| c s IH]; intros cur H.
  - simpl in H. rewrite orb_false_r in H.
    apply startswith_empty_r in H. contradiction.
  - cbn [PyStr.contains] in H. cbn [PyStr.split_go].
    destruct (PyStr.startswith sep (String c s)) eqn:E.
    + destruct (split_go_cons sep s (String.length sep - 1) "")
        as (p & rest & ->). eauto.
    + simpl in H. apply IH, H.
Qed.

(** C4 as the spec states it fails on its first example: the code rebuilds
    the answer as ["Final Answer:"] followed by the stripped remainder, so
    the blank after the colon is gone. *)
Lemma split_reasoning_delimited_not_verbatim :
  split_reasoning (PStr example_delimited)
  ≠ inr {| thinking := Some "step1"; answer := PStr "Final Answer: X" |}.
Proof. vm_compute. discriminate. Qed.

(** C4, amended: ["step1\n\nFinal Answer: X"] yields thinking ["step1"] and
    answer ["Final Answer:X"]; ["p1\n\np2\n\np3"] yields thinking
    ["p1\n\np2"] and answer ["p3"]; ["single line"] yields itself as the
    answer and no thinking; and whenever the text contains the delimiter,
    the delimiter rule decides, whatever paragraphs the text has: thinking
    is the stripped first piece and the answer is ["Final Answer:"] followed
    by the stripped second piece. *)
Theorem split_reasoning_cases :
  split_reasoning (PStr example_delimited)
  = inr {| thinking := Some "step1"; answer := PStr "Final Answer:X" |}
  ∧ split_reasoning (PStr example_paragraphs)
    = inr {| thinking := Some ("p1" +:+ blank_line +:+ "p2");
             answer := PStr "p3" |}
  ∧ split_reasoning (PStr "single line")
    = inr {| thinking := None; answer := PStr "single line" |}
  ∧ (∀ a, PyStr.contains final_answer_delim a = true →
          ∃ p0 p1 rest,
            PyStr.split final_answer_delim a = p0 :: p1 :: rest
            ∧ split_reasoning (PStr a)
              = inr {| thinking := Some (PyStr.strip p0);
                       answer := PStr ("Final Answer:" +:+ PyStr.strip p1) |}).
Proof.
  repeat split; try (vm_compute; reflexivity).
  intros a H.
  destruct (split_contains final_answer_delim a) as (p0 & p1 & rest & Hs);
    [discriminate | exact H |].
  exists p0, p1, rest. split; [exact Hs |].
  unfold split_reasoning. rewrite H, Hs. reflexivity.
Qed.

Lemma split_reasoning_cases_witness :
  ∃ p0 p1 rest,
    PyStr.split final_answer_delim example_delimited_paragraphs
    = p0 :: p1 :: rest
    ∧ split_reasoning (PStr example_delimited_paragraphs)
      = inr {| thinking := Some (PyStr.strip p0);
               answer := PStr ("Final Answer:" +:+ PyStr.strip p1) |}.
Proof.
  apply (proj2 (proj2 (proj2 split_reasoning_cases))).
  vm_compute. reflexivity.
Defined.

(** ** The build and the health check *)

(** C5 as the spec states it fails on the message: the code stores its own
    text, not ["service unavailable"]. *)
Lemma process_document_message_differs :
  error <$> (document_store
               (snd (process_document "s" "/tmp/tmpk3v9.pdf" "a.pdf"
                       ollama_down init_world)) !! "s")
  ≠ Some (Some "service unavailable").
Proof. vm_compute. discriminate. Qed.

(** C5, amended: the build asks whether the model service is reachable
    before any other collaborator is called; when it is not, the session
    goes to status error with the message "Ollama is not running. Please
    start Ollama before processing documents.", the stored chain is left as
    it was, and no loading, chunking, indexing or chain assembly happens:
    the health check is the only call the build adds to the trace. *)
Theorem process_document_ollama_down sid path fname env w :
  ollama_running env = false →
  (∃ s, document_store (snd (process_document sid path fname env w)) !! sid
        = Some s
        ∧ status s = StError
        ∧ error s = Some ollama_not_running
        ∧ retrieval_chain s
          = retrieval_chain (current sid (document_store w)))
  ∧ trace (snd (process_document sid path fname env w))
    = trace w ++ [EvHealthCheck].
Proof.
  intros Hdown. rewrite process_document_eq. simpl.
  unfold build_events, process_session, build_result. rewrite Hdown. simpl.
  split; [| reflexivity].
  rewrite lookup_alter_eq, touch_lookup. simpl. eauto.
Qed.

Lemma process_document_ollama_down_witness :
  (∃ s, document_store
          (snd (process_document "s" "/tmp/tmpk3v9.pdf" "a.pdf" ollama_down
                  uploaded_world)) !! "s"
        = Some s
        ∧ status s = StError
        ∧ error s = Some ollama_not_running
        ∧ retrieval_chain s
          = retrieval_chain (current "s" (document_store uploaded_world)))
  ∧ trace (snd (process_document "s" "/tmp/tmpk3v9.pdf" "a.pdf" ollama_down
                  uploaded_world))
    = trace uploaded_world ++ [EvHealthCheck].
Proof. apply process_document_ollama_down. reflexivity. Defined.

(** ** Upload validation *)

Lemma lower_rev_app s1 s2 :
  PyStr.lower (String.rev_app s1 s2)
  = String.rev_app (PyStr.lower s1) (PyStr.lower s2).
Proof.
  revert s2. induction s1 as [| c s1 IH]; intros s2; simpl; [reflexivity |].
  by rewrite IH.
Qed.

Lemma lower_char_is (x lo up : ascii) :
  (lo, up) ∈ [("f", "F"); ("d", "D"); ("p", "P"); (".", ".")]%char →
  bool_decide (lo = PyStr.lower_char x) = either x lo up.
Proof.
  intros H. repeat (apply elem_of_cons in H as [[= -> ->] | H]);
    [.. | by apply elem_of_nil in H];
    destruct x as [[] [] [] [] [] [] [] []]; vm_compute; reflexivity.
Qed.

(** [file.filename.lower().endswith('.pdf')] is the case-insensitive test
    of the spec. *)
Lemma is_pdf_spec fname : is_pdf fname = ends_with_pdf_ci fname.
Proof.
  unfold is_pdf, PyStr.endswith, ends_with_pdf_ci, String.rev.
  change (String.rev_app (PyStr.lower fname) "")
    with (String.rev_app (PyStr.lower fname) (PyStr.lower "")).
  rewrite <- lower_rev_app.
  destruct (String.rev_app fname "") as [| c [| b [| a [| dot r]]]];
    try reflexivity; cbn [PyStr.lower]; simpl;
    rewrite ?andb_false_r; try reflexivity.
  rewrite (lower_char_is c "f" "F"), (lower_char_is b "d" "D"),
    (lower_char_is a "p" "P"), (lower_char_is dot "." ".")
    by (repeat constructor).
  unfold either at 4. rewrite orb_diag, andb_true_r, !andb_assoc.
  reflexivity.
Qed.

(** C9: an upload whose session id is missing (or empty), or whose file
    name does not end in [.pdf] whatever the case, fails with a 400 and
    leaves the world as it was: no session is created or changed and no
    background task is scheduled. *)
Theorem upload_rejected_before_scheduling sid fname io w :
  falsy sid = true ∨ ends_with_pdf_ci fname = false →
  ∃ detail,
    upload_document sid fname io w = (inl (HTTPException 400 detail), w).
Proof.
  unfold upload_document. rewrite is_pdf_spec. intros [H | H].
  - rewrite H. eauto.
  - destruct (falsy sid); [eauto |]. rewrite H. simpl. eauto.
Qed.

Lemma upload_rejected_before_scheduling_witness :
  (∃ detail,
      upload_document None "a.pdf" sample_io uploaded_world
      = (inl (HTTPException 400 detail), uploaded_world))
  ∧ (∃ detail,
        upload_document (Some "s") "notes.txt" sample_io uploaded_world
        = (inl (HTTPException 400 detail), uploaded_world)).
Proof.
  split; apply upload_rejected_before_scheduling.
  - left. reflexivity.
  - right. vm_compute. reflexivity.
Defined.

(** ** Questions before the build has completed *)

(** C6 as the spec states it fails on the detail: for a session that is
    merely uploaded the 400 carries a fixed text that shows neither the
    status nor an error. *)
Lemma not_ready_detail_omits_status :
  status (current "s" (document_store uploaded_world)) = StUploaded
  ∧ fst (ask_question sample_render (mkQuestionRequest "q" "s" false)
           (inr (PStr "a")) uploaded_world)
    = inl (HTTPException 400 "Document processing not completed")
  ∧ ¬ carries_status_or_error (current "s" (document_store uploaded_world))
        "Document processing not completed".
Proof.
  split; [reflexivity |]. split; [reflexivity |].
  intros [H | (e & He & _)].
  - vm_compute in H. discriminate.
  - vm_compute in He. discriminate.
Qed.

(** C6, amended: for every session whose status is not completed (an id
    never seen counts, its status is none) [ask_question] fails with a 400
    and never invokes the chain: the trace and the pending tasks are as
    before.  The detail is "Error processing document: " followed by the
    stored error when the status is error, and the fixed text "Document
    processing not completed" for every other status. *)
Theorem ask_not_ready render request out w :
  status (current (session_id request) (document_store w)) ≠ StCompleted →
  fst (ask_question render request out w)
  = inl (HTTPException 400
           (not_ready_detail (current (session_id request) (document_store w))))
  ∧ trace (snd (ask_question render request out w)) = trace w
  ∧ background_tasks (snd (ask_question render request out w))
    = background_tasks w.
Proof.
  intros Hst. rewrite ask_question_not_ready by exact Hst.
  repeat split; reflexivity.
Qed.

Lemma ask_not_ready_witness :
  fst (ask_question sample_render (mkQuestionRequest "q" "s" false)
         (inr (PStr "a")) uploaded_world)
  = inl (HTTPException 400
           (not_ready_detail (current "s" (document_store uploaded_world))))
  ∧ trace (snd (ask_question sample_render (mkQuestionRequest "q" "s" false)
                  (inr (PStr "a")) uploaded_world))
    = trace uploaded_world
  ∧ background_tasks
      (snd (ask_question sample_render (mkQuestionRequest "q" "s" false)
              (inr (PStr "a")) uploaded_world))
    = background_tasks uploaded_world.
Proof.
  apply (ask_not_ready sample_render (mkQuestionRequest "q" "s" false)).
  vm_compute. discriminate.
Defined.

(** ** Operation sequences *)

Lemma run_app render ops1 ops2 w :
  run render (ops1 ++ ops2) w = run render ops2 (run render ops1 w).
Proof. revert w. induction ops1 as [| o ops1 IH]; intros w; simpl; auto. Qed.

Lemma run_snoc render ops o w :
  run render (ops ++ [o]) w = step render o (run render ops w).
Proof. apply run_app. Qed.

Lemma ask_question_store render request out w :
  ∃ r t',
    ask_question render request out w
    = (r, {| document_store := touch (session_id request) (document_store w);
             background_tasks := background_tasks w;
             trace := t' |}).
Proof.
  unfold ask_question, mbind at 1, M_bind at 1. rewrite get_or_create_eq.
  destruct w as [m q t]. cbn [document_store background_tasks].
  destruct (current (session_id request) m) as [st ch pr fn er fm].
  cbn [status retrieval_chain error].
  destruct (bool_decide (st = StCompleted)); simpl.
  2: { destruct (bool_decide (st = StError)); eexists _, _; reflexivity. }
  destruct ch as [c |]; [| eexists _, _; reflexivity].
  destruct fm as [[] |]; [| eexists _, _; reflexivity].
  destruct out as [e | response]; [eexists _, _; reflexivity |].
  run_handler. cbn.
  destruct (include_reasoning request); [| eexists _, _; reflexivity].
  destruct (split_reasoning _); eexists _, _; reflexivity.
Qed.

Lemma step_store render o w :
  document_store (step render o w)
  = match o with
    | OpUpload sid fname io =>
        match upload_accepted sid fname io with
        | Some t =>
            alter (set_status StUploaded) (task_session_id t)
              (touch (task_session_id t) (document_store w))
        | None => document_store w
        end
    | OpRunTask i env =>
        match background_tasks w !! i with
        | Some t =>
            alter (process_session (task_filename t) env) (task_session_id t)
              (touch (task_session_id t) (document_store w))
        | None => document_store w
        end
    | OpStatus sid => touch sid (document_store w)
    | OpAsk request _ => touch (session_id request) (document_store w)
    end.
Proof.
  destruct o as [sid fname io | i env | sid | request out]; simpl.
  - rewrite upload_document_world. by destruct (upload_accepted _ _ _).
  - unfold run_task. destruct (background_tasks w !! i); [| reflexivity].
    rewrite process_document_eq. reflexivity.
  - rewrite document_status_eq. reflexivity.
  - destruct (ask_question_store render request out w) as (r & t' & ->).
    reflexivity.
Qed.

Lemma delete_lookup_None {A} (l : list A) i :
  l !! i = None → delete i l = l.
Proof.
  revert i. induction l as [| x l IH]; intros [| i] H; simpl in *;
    try reflexivity; try discriminate.
  f_equal. by apply IH.
Qed.

Lemma step_tasks render o w :
  background_tasks (step render o w)
  = match o with
    | OpUpload sid fname io =>
        match upload_accepted sid fname io with
        | Some t => background_tasks w ++ [t]
        | None => background_tasks w
        end
    | OpRunTask i env => delete i (background_tasks w)
    | _ => background_tasks w
    end.
Proof.
  destruct o as [sid fname io | i env | sid | request out]; simpl.
  - rewrite upload_document_world. by destruct (upload_accepted _ _ _).
  - unfold run_task. destruct (background_tasks w !! i) eqn:E.
    + rewrite process_document_eq. reflexivity.
    + symmetry. by apply delete_lookup_None.
  - rewrite document_status_eq. reflexivity.
  - destruct (ask_question_store render request out w) as (r & t' & ->).
    reflexivity.
Qed.

Lemma lookup_alter_touch (f : session → session) k0 k m :
  alter f k0 (touch k0 m) !! k
  = if decide (k0 = k) then Some (f (current k0 m)) else m !! k.
Proof.
  case_decide as Hk.
  - subst. by rewrite lookup_alter_eq, touch_lookup.
  - by rewrite lookup_alter_ne, touch_lookup_ne.
Qed.

Lemma lookup_touch k0 k m :
  touch k0 m !! k = if decide (k0 = k) then Some (current k0 m) else m !! k.
Proof.
  case_decide as Hk.
  - subst. apply touch_lookup.
  - by apply touch_lookup_ne.
Qed.

Lemma current_lookup k m s : m !! k = Some s → current k m = s.
Proof. unfold current. by intros ->. Qed.

(** Every operation moves every session by one [session_step]. *)
Lemma step_session render o w k s' :
  document_store (step render o w) !! k = Some s' →
  session_step (current k (document_store w)) s'.
Proof.
  rewrite step_store.
  assert (Hsame : document_store w !! k = Some s' →
                  session_step (current k (document_store w)) s').
  { intros H. rewrite (current_lookup _ _ _ H). constructor. }
  destruct o as [sid fname io | i env | sid | request out].
  - destruct (upload_accepted sid fname io) as [t |]; [| exact Hsame].
    rewrite lookup_alter_touch. case_decide; [| exact Hsame].
    subst. intros [= <-]. constructor.
  - destruct (background_tasks w !! i) as [t |]; [| exact Hsame].
    rewrite lookup_alter_touch. case_decide; [| exact Hsame].
    subst. intros [= <-]. constructor.
  - rewrite lookup_touch. case_decide; [| exact Hsame].
    subst. intros [= <-]. constructor.
  - rewrite lookup_touch. case_decide; [| exact Hsame].
    subst. intros [= <-]. constructor.
Qed.

Lemma session_step_ready s s' :
  session_step s s' → ready_if_completed s → ready_if_completed s'.
Proof.
  intros [s0 | s0 | fname env s0] H; [exact H | discriminate |].
  unfold process_session. destruct (build_result env); [discriminate |].
  intros _. simpl. eauto.
Qed.

(** A step that leaves a chain in the session either completed the
    session just now or found the chain already there. *)
Lemma session_step_chain s s' :
  session_step s s' →
  status s' = StCompleted ∨ retrieval_chain s' = retrieval_chain s.
Proof.
  intros [s0 | s0 | fname env s0]; [by right | by right |].
  unfold process_session. destruct (build_result env); [by right | by left].
Qed.

Lemma current_ready k m :
  (∀ s, m !! k = Some s → ready_if_completed s) →
  ready_if_completed (current k m).
Proof.
  intros H. unfold current. destruct (m !! k) as [s |]; simpl.
  - by apply H.
  - discriminate.
Qed.

(** Reachable worlds: every completed session is ready to answer. *)
Lemma run_ready render ops k s :
  document_store (run render ops init_world) !! k = Some s →
  ready_if_completed s.
Proof.
  revert k s. induction ops as [| o ops IH] using rev_ind; intros k s H.
  - simpl in H. by rewrite lookup_empty in H.
  - rewrite run_snoc in H. apply step_session in H.
    eapply session_step_ready; [exact H |].
    apply current_ready. intros s0. apply IH.
Qed.

Lemma completed_before_snoc render ops o k :
  completed_before render ops k → completed_before render (ops ++ [o]) k.
Proof.
  intros (ops1 & ops2 & s1 & -> & Hs & Hst).
  exists ops1, (ops2 ++ [o]), s1. by rewrite (assoc_L (++)).
Qed.

(** Reachable worlds: a stored chain was put there by a build that
    completed. *)
Lemma run_chain_history render ops k s :
  document_store (run render ops init_world) !! k = Some s →
  is_Some (retrieval_chain s) →
  completed_before render ops k.
Proof.
  revert k s. induction ops as [| o ops IH] using rev_ind; intros k s H Hc.
  - simpl in H. by rewrite lookup_empty in H.
  - pose proof H as Hstep. rewrite run_snoc in Hstep.
    apply step_session, session_step_chain in Hstep as [Hdone | Hkept].
    + exists (ops ++ [o]), [], s. by rewrite (right_id_L [] (++)).
    + apply completed_before_snoc. rewrite Hkept in Hc. unfold current in Hc.
      destruct (document_store (run render ops init_world) !! k) as [s0 |] eqn:E.
      * by apply (IH k s0).
      * simpl in Hc. by destruct Hc.
Qed.

(** ** The pipeline and the status *)

(** C1 as the spec states it fails after a second upload: the session is
    back at uploaded while the chain of the first build is still stored. *)
Lemma reupload_keeps_chain :
  document_store (run sample_render reupload_ops init_world) !! "s"
  = Some reuploaded_session
  ∧ ¬ (is_Some (retrieval_chain reuploaded_session)
       ↔ status reuploaded_session = StCompleted).
Proof.
  split; [vm_compute; reflexivity |].
  intros [H _]. discriminate H. simpl. eauto.
Qed.

(** C1, amended: at every point of every operation sequence, a session
    whose status is completed holds a chain; and a session that holds a
    chain had status completed at that point or an earlier one (a later
    upload or failed build changes the status and keeps the chain). *)
Theorem pipeline_status_invariant render ops k s :
  document_store (run render ops init_world) !! k = Some s →
  (status s = StCompleted → is_Some (retrieval_chain s))
  ∧ (is_Some (retrieval_chain s) → completed_before render ops k).
Proof.
  intros H. split.
  - intros Hst. by destruct (run_ready render ops k s H Hst).
  - by apply run_chain_history.
Qed.

Lemma pipeline_status_invariant_witness :
  document_store (run sample_render reupload_ops init_world) !! "s"
  = Some reuploaded_session
  ∧ completed_before sample_render reupload_ops "s".
Proof.
  assert (H : document_store (run sample_render reupload_ops init_world) !! "s"
              = Some reuploaded_session) by (vm_compute; reflexivity).
  split; [exact H |].
  apply (proj2 (pipeline_status_invariant sample_render reupload_ops "s"
                  reuploaded_session H)).
  simpl. eauto.
Defined.

(** ** Failures while answering *)

Lemma touch_id k m s : m !! k = Some s → touch k m = m.
Proof. unfold touch. by intros ->. Qed.

Lemma with_store_touch_id k w s :
  document_store w !! k = Some s → with_store (touch k) w = w.
Proof.
  intros H. unfold with_store. rewrite (touch_id _ _ _ H). by destruct w.
Qed.

(** C7: on a reachable world, when the chain raises for a session whose
    status is completed, the handler answers with one 500 whose detail
    carries the message of the exception; the world afterwards is the world
    before plus the record of that one invocation, so the store (status
    completed, the chain, the formatter) is untouched, and a further
    question on the same session is answered from the same chain. *)
Theorem ask_generation_failed render ops request e s :
  document_store (run render ops init_world) !! session_id request = Some s →
  status s = StCompleted →
  ∃ c, retrieval_chain s = Some c
    ∧ ask_question render request (inl e) (run render ops init_world)
      = (inl (HTTPException 500
                ("Error processing question: " +:+ exn_str e)),
         with_trace
           (λ t, t ++ [EvInvoke c {[ "question" := PStr (question request) ]}])
           (run render ops init_world))
    ∧ document_store
        (snd (ask_question render request (inl e)
                (run render ops init_world))) !! session_id request
      = Some s
    ∧ ∀ q response,
        fst (ask_question render
               (mkQuestionRequest q (session_id request) false)
               (inr response)
               (snd (ask_question render request (inl e)
                       (run render ops init_world))))
        = inr {| thinking := None; answer := extract_answer render response |}.
Proof.
  intros Hs Hst.
  destruct (run_ready render ops _ s Hs Hst) as [[c Hc] [f Hf]].
  pose proof (current_lookup _ _ _ Hs) as Hcur.
  assert (Hask : ∀ req out w,
    session_id req = session_id request →
    document_store w = document_store (run render ops init_world) →
    ask_question render req out w
    = (match out with
       | inl e =>
           inl (HTTPException 500
                  ("Error processing question: " +:+ exn_str e))
       | inr response =>
           if include_reasoning req then
             match split_reasoning (extract_answer render response) with
             | inl e =>
                 inl (HTTPException 500
                        ("Error processing question: " +:+ exn_str e))
             | inr r => inr r
             end
           else inr {| thinking := None;
                       answer := extract_answer render response |}
       end,
       with_trace
         (λ t, t ++ [EvInvoke c {[ "question" := PStr (question req) ]}]) w)).
  { intros req out w Hid Hw.
    rewrite (ask_question_ready render req out w c f);
      rewrite ?Hid, ?Hw, ?Hcur; try done.
    erewrite with_store_touch_id; [reflexivity |]. rewrite Hw. exact Hs. }
  exists c. split; [exact Hc |].
  rewrite (Hask request (inl e) _ eq_refl eq_refl).
  split; [reflexivity |]. split; [exact Hs |].
  intros q response. rewrite Hask; reflexivity.
Qed.

Lemma ask_generation_failed_witness :
  ∃ c, retrieval_chain completed_session = Some c
    ∧ ask_question sample_render (mkQuestionRequest "q" "s" false)
        (inl (External "connection refused"))
        (run sample_render completed_ops init_world)
      = (inl (HTTPException 500
                ("Error processing question: "
                 +:+ exn_str (External "connection refused"))),
         with_trace
           (λ t, t ++ [EvInvoke c {[ "question" := PStr "q" ]}])
           (run sample_render completed_ops init_world))
    ∧ document_store
        (snd (ask_question sample_render (mkQuestionRequest "q" "s" false)
                (inl (External "connection refused"))
                (run sample_render completed_ops init_world))) !! "s"
      = Some completed_session
    ∧ ∀ q response,
        fst (ask_question sample_render (mkQuestionRequest q "s" false)
               (inr response)
               (snd (ask_question sample_render
                       (mkQuestionRequest "q" "s" false)
                       (inl (External "connection refused"))
                       (run sample_render completed_ops init_world))))
        = inr {| thinking := None;
                 answer := extract_answer sample_render response |}.
Proof.
  apply (ask_generation_failed sample_render completed_ops
           (mkQuestionRequest "q" "s" false)
           (External "connection refused") completed_session).
  - vm_compute. reflexivity.
  - reflexivity.
Defined.

(** ** Sessions never uploaded to *)

Lemma upload_accepted_sid sid fname io t :
  upload_accepted sid fname io = Some t → sid = Some (task_session_id t).
Proof.
  unfold upload_accepted. destruct sid as [k |]; [| discriminate].
  destruct (falsy (Some k) || negb (is_pdf fname)); [discriminate |].
  destruct (tempfile io); [discriminate |].
  destruct (write_fails io); [discriminate |]. by intros [= <-].
Qed.

Lemma current_touch k0 k m : current k (touch k0 m) = current k m.
Proof.
  unfold current at 1. rewrite lookup_touch. case_decide; [by subst |].
  reflexivity.
Qed.

Lemma current_alter_touch_ne (f : session → session) k0 k m :
  k0 ≠ k → current k (alter f k0 (touch k0 m)) = current k m.
Proof.
  intros Hne. unfold current at 1. rewrite lookup_alter_touch.
  by rewrite decide_False.
Qed.

(** An operation that is not an upload to [k], in a world with no pending
    build for [k], leaves the content of session [k] alone and schedules no
    build for it. *)
Lemma step_untouched render o w k :
  uploads_to k o = false →
  Forall (λ t, task_session_id t ≠ k) (background_tasks w) →
  Forall (λ t, task_session_id t ≠ k) (background_tasks (step render o w))
  ∧ current k (document_store (step render o w))
    = current k (document_store w).
Proof.
  intros Hup Hq. rewrite step_tasks, step_store.
  destruct o as [sid fname io | i env | sid | request out].
  - destruct (upload_accepted sid fname io) as [t |] eqn:E; [| done].
    apply upload_accepted_sid in E. subst sid. simpl in Hup.
    apply bool_decide_eq_false in Hup. split.
    + apply Forall_app. split; [exact Hq |]. by constructor.
    + by apply current_alter_touch_ne.
  - split; [by apply Forall_delete |].
    destruct (background_tasks w !! i) as [t |] eqn:E; [| done].
    apply current_alter_touch_ne.
    by apply (proj1 (Forall_lookup _ _) Hq i t).
  - split; [exact Hq | apply current_touch].
  - split; [exact Hq | apply current_touch].
Qed.

Lemma run_untouched render ops k :
  Forall (λ o, uploads_to k o = false) ops →
  Forall (λ t, task_session_id t ≠ k)
    (background_tasks (run render ops init_world))
  ∧ current k (document_store (run render ops init_world)) = new_session.
Proof.
  induction ops as [| o ops IH] using rev_ind; intros H.
  - split; [constructor | reflexivity].
  - apply Forall_app in H as [Hops Ho]. apply Forall_inv in Ho.
    destruct (IH Hops) as [Hq Hcur]. rewrite run_snoc.
    destruct (step_untouched render o _ k Ho Hq) as [Hq' Hcur'].
    split; [exact Hq' | by rewrite Hcur'].
Qed.

(** C8: after any sequence of operations in which no upload names the
    session id (status checks, questions, uploads and builds of other
    sessions), the status check of that id answers status none, with no
    file name and no error. *)
Theorem status_of_unseen_session render ops k :
  Forall (λ o, uploads_to k o = false) ops →
  fst (document_status k (run render ops init_world))
  = inr {| st_session_id := k; st_status := "none";
           st_filename := None; st_error := None |}.
Proof.
  intros H. rewrite document_status_eq.
  destruct (run_untouched render ops k H) as [_ ->]. reflexivity.
Qed.

Lemma status_of_unseen_session_witness :
  fst (document_status "t"
         (run sample_render
            (OpAsk (mkQuestionRequest "q" "t" false) (inr (PStr "a"))
             :: OpStatus "t" :: reupload_ops)
            init_world))
  = inr {| st_session_id := "t"; st_status := "none";
           st_filename := None; st_error := None |}.
Proof.
  apply status_of_unseen_session.
  repeat constructor.
Defined.

(** * Further properties of the code *)

(** ** Python string helpers *)

Lemma append_nil_l s : "" +:+ s = s.
Proof. reflexivity. Qed.

Lemma append_cons c s t : String c s +:+ t = String c (s +:+ t).
Proof. reflexivity. Qed.

Lemma append_nil_r s : s +:+ "" = s.
Proof.
  induction s as [| c s IH]; [reflexivity |]. by rewrite append_cons, IH.
Qed.

Lemma append_assoc s1 s2 s3 : (s1 +:+ s2) +:+ s3 = s1 +:+ (s2 +:+ s3).
Proof.
  induction s1 as [| c s1 IH]; [reflexivity |]. by rewrite !append_cons, IH.
Qed.

Lemma rev_app_append s1 s2 :
  String.rev_app s1 s2 = String.rev s1 +:+ s2.
Proof.
  unfold String.rev. revert s2.
  induction s1 as [| c s1 IH]; intros s2; simpl; [reflexivity |].
  rewrite IH, (IH (String c "")), append_assoc. reflexivity.
Qed.

Lemma rev_cons c s : String.rev (String c s) = String.rev s +:+ String c "".
Proof. unfold String.rev at 1. simpl. apply rev_app_append. Qed.

(** [startswith p s] holds exactly when [s] is [p] followed by a rest. *)
Lemma startswith_append p s :
  PyStr.startswith p s = true ↔ ∃ rest, s = p +:+ rest.
Proof.
  revert s. induction p as [| a p IH]; intros s; simpl.
  - split; [eauto | done].
  - destruct s as [| b s].
    + split; [done | intros [rest H]; discriminate].
    + rewrite andb_true_iff, bool_decide_eq_true, IH. split.
      * intros [-> [rest ->]]. eauto.
      * intros [rest [= -> ->]]. eauto.
Qed.

(** A text that contains [p +:+ q] contains [p]. *)
Lemma contains_prefix p q s :
  PyStr.contains (p +:+ q) s = true → PyStr.contains p s = true.
Proof.
  assert (Hsw : ∀ t, PyStr.startswith (p +:+ q) t = true →
                     PyStr.startswith p t = true).
  { intros t [rest H]%startswith_append. apply startswith_append.
    exists (q +:+ rest). by rewrite <- append_assoc. }
  induction s as [| c s IH]; cbn [PyStr.contains]; intros H.
  - rewrite orb_false_r in H |- *. by apply Hsw.
  - apply orb_true_iff in H as [H | H]; apply orb_true_iff.
    + left. by apply Hsw.
    + right. by apply IH.
Qed.

(** [s.count(sub) > 0] and [sub in s] agree. *)
Lemma count_contains sub s :
  sub ≠ "" → (0 <? PyStr.count sub s) = PyStr.contains sub s.
Proof.
  intros Hsub. unfold PyStr.count.
  induction s as [| c s IH]; cbn [PyStr.count_go PyStr.contains].
  - destruct sub; [done | reflexivity].
  - destruct (PyStr.startswith sub (String c s)); [reflexivity | exact IH].
Qed.

Lemma split_go_skip sep s k cur :
  k ≤ String.length s →
  PyStr.split_go sep s k cur = PyStr.split_go sep (string_drop k s) 0 cur.
Proof.
  revert k. induction s as [| c s IH]; intros [| k] Hk; simpl in *;
    try reflexivity.
  apply IH. lia.
Qed.

Lemma length_append s1 s2 :
  String.length (s1 +:+ s2) = String.length s1 + String.length s2.
Proof.
  induction s1 as [| c s1 IH]; [reflexivity |].
  rewrite append_cons. simpl. by rewrite IH.
Qed.

Lemma string_drop_append s1 s2 :
  string_drop (String.length s1) (s1 +:+ s2) = s2.
Proof.
  induction s1 as [| c s1 IH]; [by destruct s2 |].
  rewrite append_cons. simpl. exact IH.
Qed.

Lemma join_cons sep p l :
  l ≠ [] → PyStr.join sep (p :: l) = p +:+ sep +:+ PyStr.join sep l.
Proof. destruct l; [done | reflexivity]. Qed.

(** Joining the pieces of a split with the separator gives the text back. *)
Lemma join_split_go sep n s cur :
  sep ≠ "" → String.length s ≤ n →
  PyStr.join sep (PyStr.split_go sep s 0 cur) = String.rev cur +:+ s.
Proof.
  intros Hsep. revert s cur.
  induction n as [| n IH]; intros s cur Hn.
  - destruct s; [| simpl in Hn; lia]. simpl. by rewrite append_nil_r.
  - destruct s as [| c s]; [simpl; by rewrite append_nil_r |].
    cbn [PyStr.split_go].
    destruct (PyStr.startswith sep (String c s)) eqn:E.
    + apply startswith_append in E as [rest E].
      destruct sep as [| a sep]; [done |].
      rewrite append_cons in E. injection E as -> ->.
      destruct (split_go_cons (String a sep) (sep +:+ rest)
                  (String.length (String a sep) - 1) "") as (p & l & Hpl).
      rewrite join_cons by (rewrite Hpl; done).
      rewrite split_go_skip by (simpl; rewrite length_append; lia).
      replace (String.length (String a sep) - 1) with (String.length sep)
        by (simpl; lia).
      rewrite string_drop_append, IH.
      * change (String.rev "") with "". rewrite append_nil_l.
        by rewrite append_cons.
      * simpl in Hn. rewrite length_append in Hn. lia.
    + rewrite IH by (simpl in Hn; lia).
      rewrite rev_cons, append_assoc. reflexivity.
Qed.

Lemma join_split sep s :
  sep ≠ "" → PyStr.join sep (PyStr.split sep s) = s.
Proof.
  intros Hsep. unfold PyStr.split.
  by rewrite (join_split_go sep (String.length s)).
Qed.

Lemma join_snoc sep l x :
  l ≠ [] → PyStr.join sep (l ++ [x]) = PyStr.join sep l +:+ sep +:+ x.
Proof.
  induction l as [| p l IH]; [done |]. intros _.
  destruct l as [| q l]; [reflexivity |].
  change ((p :: q :: l) ++ [x]) with (p :: ((q :: l) ++ [x])).
  rewrite join_cons by (by destruct l). rewrite IH by done.
  rewrite (join_cons sep p (q :: l)) by done.
  by rewrite !append_assoc.
Qed.

Lemma init_last (l : list string) x :
  last l = Some x → l = PyStr.init l ++ [x].
Proof.
  intros H. unfold PyStr.init.
  apply last_Some in H as [l' ->].
  rewrite length_app. simpl.
  replace (length l' + 1 - 1) with (length l') by lia.
  by rewrite take_app_length.
Qed.

(** ** More on the reasoning split *)

Lemma blank_line_ne : blank_line ≠ "".
Proof. discriminate. Qed.

Lemma final_answer_delim_ne : final_answer_delim ≠ "".
Proof. discriminate. Qed.

Lemma delim_contains_blank a :
  PyStr.contains final_answer_delim a = true →
  PyStr.contains blank_line a = true.
Proof. apply (contains_prefix blank_line "Final Answer:"). Qed.

Lemma split_reasoning_returns (ans : pyval) :
  ∃ r, split_reasoning ans = inr r.
Proof.
  destruct ans as [| n | a | xs | items]; simpl; eauto.
  destruct (PyStr.contains final_answer_delim a) eqn:Hd.
  - destruct (split_contains _ a final_answer_delim_ne Hd)
      as (p0 & p1 & rest & ->). simpl. eauto.
  - destruct (0 <? PyStr.count blank_line a); [| eauto].
    unfold PyStr.split.
    destruct (split_go_cons blank_line a 0 "") as (p & rest & ->).
    unfold list_last. destruct (last (p :: rest)) eqn:E; simpl; [eauto |].
    by apply last_None in E.
Qed.

(** X1: the split never raises: whatever the answer is, a dict comes
    back, so neither [parts[1]] nor [paragraphs[-1]] can be out of range
    on the branch that reads it. *)
Theorem split_reasoning_never_raises (ans : pyval) :
  ∃ r, split_reasoning ans = inr r.
Proof. apply split_reasoning_returns. Qed.

(** X2: on a text with a blank line and no delimiter the paragraph rule
    loses nothing: thinking, a blank line and the answer, put together
    again, are the text. *)
Theorem split_reasoning_paragraphs_lossless (a : string) :
  PyStr.contains final_answer_delim a = false →
  PyStr.contains blank_line a = true →
  ∃ t ans,
    split_reasoning (PStr a)
    = inr {| thinking := Some t; answer := PStr ans |}
    ∧ t +:+ blank_line +:+ ans = a.
Proof.
  intros Hd Hb. unfold split_reasoning.
  rewrite Hd, (count_contains _ _ blank_line_ne), Hb.
  destruct (split_contains _ a blank_line_ne Hb) as (p0 & p1 & rest & Hs).
  unfold list_last. destruct (last (PyStr.split blank_line a)) as [x |] eqn:E.
  2: { apply last_None in E. rewrite Hs in E. discriminate. }
  simpl. eexists _, _. split; [reflexivity |].
  pose proof (init_last _ _ E) as Hl.
  assert (Hne : PyStr.init (PyStr.split blank_line a) ≠ []).
  { intros Hnil. rewrite Hnil, Hs in Hl. discriminate. }
  rewrite <- (join_snoc _ _ _ Hne), <- Hl.
  by apply join_split.
Qed.

Lemma split_reasoning_paragraphs_lossless_witness :
  ∃ t ans,
    split_reasoning (PStr example_paragraphs)
    = inr {| thinking := Some t; answer := PStr ans |}
    ∧ t +:+ blank_line +:+ ans = example_paragraphs.
Proof.
  apply split_reasoning_paragraphs_lossless; vm_compute; reflexivity.
Defined.

(** X3: the split returns a [thinking] part exactly when the text has a
    blank line; without one the answer is the text itself. *)
Theorem split_reasoning_thinking_iff_blank_line (a : string) (r : answer_dict) :
  split_reasoning (PStr a) = inr r →
  (thinking r = None ↔ PyStr.contains blank_line a = false)
  ∧ (thinking r = None → answer r = PStr a).
Proof.
  unfold split_reasoning.
  rewrite (count_contains _ _ blank_line_ne).
  destruct (PyStr.contains final_answer_delim a) eqn:Hd.
  - rewrite (delim_contains_blank _ Hd).
    destruct (split_contains _ a final_answer_delim_ne Hd)
      as (p0 & p1 & rest & ->). simpl. intros [= <-]. simpl.
    split; [split |]; discriminate.
  - destruct (PyStr.contains blank_line a) eqn:Hb.
    + destruct (list_last _) as [e | x]; simpl; [discriminate |].
      intros [= <-]. simpl. split; [split |]; discriminate.
    + intros [= <-]. simpl. done.
Qed.

Lemma split_reasoning_thinking_iff_blank_line_witness :
  (thinking {| thinking := None; answer := PStr "single line" |} = None
   ↔ PyStr.contains blank_line "single line" = false)
  ∧ (thinking {| thinking := None; answer := PStr "single line" |} = None →
     answer {| thinking := None; answer := PStr "single line" |}
     = PStr "single line").
Proof.
  apply (split_reasoning_thinking_iff_blank_line "single line").
  vm_compute. reflexivity.
Defined.

(** ** The formatter and the retriever's query *)

(** X4: what [format_inputs] returns is the one-key mapping that holds the
    query the chain would have read from the raw mapping; the chain reads
    the same query from it, and formatting it again changes nothing. *)
Theorem format_inputs_keeps_query (inputs m : gmap string pyval) :
  format_inputs inputs = inr m →
  m = {[ "question" := retrieval_query inputs ]}
  ∧ retrieval_query m = retrieval_query inputs
  ∧ format_inputs m = inr m.
Proof.
  unfold format_inputs, retrieval_query.
  destruct (inputs !! "question") as [q |] eqn:Hq; simpl.
  - intros [= <-]. rewrite lookup_singleton_eq. done.
  - destruct (inputs !! "input") as [i |] eqn:Hi; simpl; [| discriminate].
    intros [= <-]. rewrite lookup_singleton_eq. done.
Qed.

Lemma format_inputs_keeps_query_witness :
  ({[ "question" := PStr "X" ]} : gmap string pyval)
  = {[ "question" := retrieval_query {[ "input" := PStr "X" ]} ]}
  ∧ retrieval_query {[ "question" := PStr "X" ]}
    = retrieval_query {[ "input" := PStr "X" ]}
  ∧ format_inputs {[ "question" := PStr "X" ]}
    = inr {[ "question" := PStr "X" ]}.
Proof.
  apply (format_inputs_keeps_query {[ "input" := PStr "X" ]}).
  reflexivity.
Defined.

(** ** Questions on a completed session *)

Lemma ask_reachable_ready render ops request out s :
  document_store (run render ops init_world) !! session_id request = Some s →
  status s = StCompleted →
  ∃ c, retrieval_chain s = Some c
    ∧ ask_question render request out (run render ops init_world)
      = (match out with
         | inl e =>
             inl (HTTPException 500
                    ("Error processing question: " +:+ exn_str e))
         | inr response =>
             if include_reasoning request then
               match split_reasoning (extract_answer render response) with
               | inl e =>
                   inl (HTTPException 500
                          ("Error processing question: " +:+ exn_str e))
               | inr r => inr r
               end
             else inr {| thinking := None;
                         answer := extract_answer render response |}
         end,
         with_trace
           (λ t, t ++ [EvInvoke c {[ "question" := PStr (question request) ]}])
           (run render ops init_world)).
Proof.
  intros Hs Hst.
  destruct (run_ready render ops _ s Hs Hst) as [[c Hc] [f Hf]].
  pose proof (current_lookup _ _ _ Hs) as Hcur.
  exists c. split; [exact Hc |].
  rewrite (ask_question_ready render request out _ c f);
    rewrite ?Hcur; try done.
  by rewrite (with_store_touch_id _ _ _ Hs).
Qed.



(** X6: the guard "No document has been processed for this session"
    (main.py 242-243) is dead on every reachable world: whatever the
    request and whatever the chain does, the handler never answers with
    that 400. *)
Theorem ask_never_reports_missing_chain render ops request out :
  fst (ask_question render request out (run render ops init_world))
  ≠ inl (HTTPException 400 "No document has been processed for this session").
Proof.
  destruct (decide (status (current (session_id request)
                      (document_store (run render ops init_world)))
                    = StCompleted)) as [Hst | Hst].
  - unfold current in Hst.
    destruct (document_store (run render ops init_world)
                !! session_id request) as [s |] eqn:Hs; [| discriminate].
    destruct (ask_reachable_ready render ops request out s Hs Hst)
      as (c & _ & ->). simpl.
    destruct out as [e | response]; [discriminate |].
    destruct (include_reasoning request); [| discriminate].
    destruct (split_reasoning _); discriminate.
  - rewrite ask_question_not_ready by exact Hst. simpl.
    unfold not_ready_detail. destruct (bool_decide _); [| discriminate].
    rewrite append_cons. discriminate.
Qed.

(** X7: [ask_question] never changes a stored session and never touches
    the pending builds; the only write it can make is the default entry
    for an id the store does not know yet. *)
Theorem ask_question_read_only render request out w :
  (∀ k s, document_store w !! k = Some s →
          document_store (snd (ask_question render request out w)) !! k
          = Some s)
  ∧ (document_store w !! session_id request = None →
     document_store (snd (ask_question render request out w))
     = <[session_id request := new_session]> (document_store w))
  ∧ background_tasks (snd (ask_question render request out w))
    = background_tasks w.
Proof.
  destruct (ask_question_store render request out w) as (r & t' & ->).
  simpl. split; [| split; [| reflexivity]].
  - intros k s Hk. rewrite lookup_touch. case_decide; [| exact Hk].
    subst. by rewrite (current_lookup _ _ _ Hk).
  - intros Hn. unfold touch. by rewrite Hn.
Qed.

(** ** Status checks *)

(** X8: a status check reports the stored status, file name and error of
    a known session and leaves the world as it is; for an id the store
    does not know it answers none/null/null and stores a default entry
    under that id, so polling grows the store. *)
Theorem document_status_reads_or_creates k w :
  (∀ s, document_store w !! k = Some s →
        document_status k w
        = (inr {| st_session_id := k;
                  st_status := status_name (status s);
                  st_filename := filename s;
                  st_error := error s |}, w))
  ∧ (document_store w !! k = None →
     document_status k w
     = (inr {| st_session_id := k; st_status := "none";
               st_filename := None; st_error := None |},
        with_store (insert k new_session) w)).
Proof.
  rewrite document_status_eq. split.
  - intros s Hk. rewrite (current_lookup _ _ _ Hk).
    by rewrite (with_store_touch_id _ _ _ Hk).
  - intros Hn. unfold current, with_store, touch. by rewrite Hn.
Qed.

Lemma document_status_reads_or_creates_witness :
  document_status "s" (run sample_render completed_ops init_world)
  = (inr {| st_session_id := "s";
            st_status := status_name (status completed_session);
            st_filename := filename completed_session;
            st_error := error completed_session |},
     run sample_render completed_ops init_world)
  ∧ document_status "t" (run sample_render completed_ops init_world)
    = (inr {| st_session_id := "t"; st_status := "none";
              st_filename := None; st_error := None |},
       with_store (insert "t" new_session)
         (run sample_render completed_ops init_world)).
Proof.
  split.
  - apply (proj1 (document_status_reads_or_creates "s" _)).
    vm_compute. reflexivity.
  - apply (proj2 (document_status_reads_or_creates "t" _)).
    vm_compute. reflexivity.
Defined.

(** ** The store as a whole *)

Lemma step_keeps_sessions render o w k :
  is_Some (document_store w !! k) →
  is_Some (document_store (step render o w) !! k).
Proof.
  intros Hk. rewrite step_store.
  destruct o as [sid fname io | i env | sid | request out].
  - destruct (upload_accepted sid fname io) as [t |]; [| exact Hk].
    rewrite lookup_alter_touch. case_decide; [eauto | exact Hk].
  - destruct (background_tasks w !! i) as [t |]; [| exact Hk].
    rewrite lookup_alter_touch. case_decide; [eauto | exact Hk].
  - rewrite lookup_touch. case_decide; [eauto | exact Hk].
  - rewrite lookup_touch. case_decide; [eauto | exact Hk].
Qed.

(** X9: no operation ever removes a session: an id that is in the store
    stays in it through every later sequence of uploads, builds, status
    checks and questions. *)
Theorem sessions_never_removed render ops w k :
  is_Some (document_store w !! k) →
  is_Some (document_store (run render ops w) !! k).
Proof.
  revert w. induction ops as [| o ops IH]; intros w Hk; simpl; [exact Hk |].
  apply IH. by apply step_keeps_sessions.
Qed.

Lemma sessions_never_removed_witness :
  is_Some (document_store
             (run sample_render
                [OpStatus "t"; OpAsk (mkQuestionRequest "q" "s" false)
                                 (inl (External "boom"))]
                (run sample_render reupload_ops init_world)) !! "s").
Proof.
  apply sessions_never_removed. vm_compute. eauto.
Defined.

(** X10: sessions do not interfere: an operation changes no session but
    the one it names (the request's id, or the id of the pending build it
    runs). *)
Theorem step_other_sessions_unchanged render o w k :
  op_session o w ≠ Some k →
  document_store (step render o w) !! k = document_store w !! k.
Proof.
  intros Hk. rewrite step_store.
  destruct o as [sid fname io | i env | sid | request out]; simpl in Hk.
  - destruct (upload_accepted sid fname io) as [t |] eqn:E; [| done].
    apply upload_accepted_sid in E. subst sid.
    rewrite lookup_alter_touch. case_decide; [by subst | done].
  - destruct (background_tasks w !! i) as [t |]; [| done]. simpl in Hk.
    rewrite lookup_alter_touch. case_decide; [by subst | done].
  - rewrite lookup_touch. case_decide; [by subst | done].
  - rewrite lookup_touch. case_decide; [by subst | done].
Qed.

Lemma step_other_sessions_unchanged_witness :
  document_store
    (step sample_render (OpRunTask 0 ollama_down)
       (run sample_render reupload_ops init_world)) !! "t"
  = document_store (run sample_render reupload_ops init_world) !! "t".
Proof.
  apply step_other_sessions_unchanged. vm_compute. discriminate.
Defined.

(** ** Uploads *)

Lemma alter_touch_insert (f : session → session) k m :
  alter f k (touch k m) = <[k := f (current k m)]> m.
Proof.
  apply map_eq. intros j. rewrite lookup_alter_touch, lookup_insert.
  reflexivity.
Qed.

Lemma upload_accepted_stored k fname temp_name :
  k ≠ "" → is_pdf fname = true →
  upload_accepted (Some k) fname (stored_as temp_name)
  = Some (Task k temp_name fname).
Proof.
  intros Hk Hpdf. unfold upload_accepted. simpl.
  by rewrite (bool_decide_eq_false_2 _ Hk), Hpdf.
Qed.

Lemma upload_document_returns sid fname io w t :
  upload_accepted sid fname io = Some t →
  fst (upload_document sid fname io w)
  = inr {| up_session_id := task_session_id t;
           up_status := "processing";
           up_message := "Document '" +:+ fname
                         +:+ "' uploaded and is being processed" |}.
Proof.
  unfold upload_document, upload_accepted.
  destruct sid as [k |]; [| discriminate].
  destruct (falsy (Some k)); [discriminate |].
  destruct (is_pdf fname); [| discriminate]. simpl.
  destruct io as [[e | temp_name] [e' |]]; simpl; try discriminate.
  intros [= <-]. simpl.
  unfold try_except, mbind at 1, M_bind at 1, lift at 1.
  unfold mbind at 1, M_bind at 1. rewrite get_or_create_eq.
  reflexivity.
Qed.

(** X11: an upload is all or nothing: whenever [upload_document] fails
    (missing id, wrong extension, no temporary file, or an error while the
    file is read and written) the world is exactly as before: no session
    is created or changed and no build is scheduled. *)
Theorem upload_failure_leaves_world sid fname io w f :
  fst (upload_document sid fname io w) = inl f →
  snd (upload_document sid fname io w) = w.
Proof.
  intros Hf. rewrite upload_document_world.
  destruct (upload_accepted sid fname io) as [t |] eqn:E; [| reflexivity].
  rewrite (upload_document_returns _ _ _ _ _ E) in Hf. discriminate.
Qed.

Lemma upload_failure_leaves_world_witness :
  snd (upload_document (Some "s") "a.pdf"
         {| tempfile := inr "/tmp/tmpk3v9.pdf";
            write_fails := Some (External "disk full") |}
         uploaded_world)
  = uploaded_world.
Proof.
  apply (upload_failure_leaves_world _ _ _ _
           (HTTPException 500 "disk full")).
  reflexivity.
Defined.

(** X12: an accepted upload answers with status "processing" although
    the status it stores is uploaded; in the session's dict only the status
    changes (chain, file name and error of an earlier build stay), exactly
    one build is appended to the pending ones, for this session, the
    temporary file and the uploaded name, and no collaborator is called. *)
Theorem upload_accepted_effect k fname temp_name w :
  k ≠ "" → is_pdf fname = true →
  upload_document (Some k) fname (stored_as temp_name) w
  = (inr {| up_session_id := k;
            up_status := "processing";
            up_message := "Document '" +:+ fname
                          +:+ "' uploaded and is being processed" |},
     {| document_store :=
          <[k := set_status StUploaded (current k (document_store w))]>
            (document_store w);
        background_tasks := background_tasks w ++ [Task k temp_name fname];
        trace := trace w |}).
Proof.
  intros Hk Hpdf.
  pose proof (upload_accepted_stored k fname temp_name Hk Hpdf) as E.
  pose proof (upload_document_returns _ _ _ w _ E) as H1.
  pose proof (upload_document_world (Some k) fname (stored_as temp_name) w)
    as H2.
  rewrite E in H2. simpl in H1, H2. rewrite alter_touch_insert in H2.
  destruct (upload_document _ _ _ w) as [r w']. simpl in *. by subst.
Qed.

Lemma upload_accepted_effect_witness :
  upload_document (Some "s") "b.PDF" (stored_as "/tmp/tmp2.pdf")
    (run sample_render completed_ops init_world)
  = (inr {| up_session_id := "s";
            up_status := "processing";
            up_message := "Document '" +:+ "b.PDF"
                          +:+ "' uploaded and is being processed" |},
     {| document_store :=
          <["s" := set_status StUploaded
                     (current "s"
                        (document_store
                           (run sample_render completed_ops init_world)))]>
            (document_store (run sample_render completed_ops init_world));
        background_tasks :=
          background_tasks (run sample_render completed_ops init_world)
          ++ [Task "s" "/tmp/tmp2.pdf" "b.PDF"];
        trace := trace (run sample_render completed_ops init_world) |}).
Proof.
  apply upload_accepted_effect; [discriminate | vm_compute; reflexivity].
Defined.

(** ** Builds *)

Lemma process_document_lookup sid path fname env w :
  document_store (snd (process_document sid path fname env w)) !! sid
  = Some (process_session fname env (current sid (document_store w))).
Proof.
  rewrite process_document_eq. simpl.
  by rewrite lookup_alter_touch, decide_True.
Qed.

(** X13: a build never raises and never leaves the session in
    processing: it ends with status completed or error, the file name set
    to the uploaded name, and the pending builds untouched. *)
Theorem process_document_settles sid path fname env w :
  fst (process_document sid path fname env w) = inr ()
  ∧ background_tasks (snd (process_document sid path fname env w))
    = background_tasks w
  ∧ ∃ s, document_store (snd (process_document sid path fname env w)) !! sid
         = Some s
         ∧ filename s = Some fname
         ∧ (status s = StCompleted ∨ status s = StError).
Proof.
  rewrite process_document_lookup. rewrite process_document_eq. simpl.
  split; [reflexivity |]. split; [reflexivity |].
  eexists. split; [reflexivity |]. unfold process_session.
  destruct (build_result env); simpl; eauto.
Qed.

Lemma build_result_ok env c :
  build_result env = inr c
  ↔ ollama_running env = true ∧ load_fails env = None
    ∧ chunk_fails env = None ∧ index_fails env = None
    ∧ assemble env = inr c.
Proof.
  unfold build_result.
  destruct (ollama_running env), (load_fails env), (chunk_fails env),
    (index_fails env); simpl;
    (split;
     [ intros H; try discriminate H; by repeat split
     | intros (? & ? & ? & ? & ?); try discriminate; done ]).
Qed.

(** X14: the session ends completed exactly when the model service is
    reachable and loading, chunking, indexing and chain assembly all
    succeed. *)
Theorem process_document_completed_iff sid path fname env w :
  status <$> document_store (snd (process_document sid path fname env w)) !! sid
  = Some StCompleted
  ↔ ollama_running env = true ∧ load_fails env = None
    ∧ chunk_fails env = None ∧ index_fails env = None
    ∧ ∃ c, assemble env = inr c.
Proof.
  rewrite process_document_lookup. simpl. unfold process_session.
  destruct (build_result env) as [m | c] eqn:E; simpl.
  - split; [discriminate |]. intros (H1 & H2 & H3 & H4 & c & H5).
    assert (build_result env = inr c) as Hc by (by apply build_result_ok).
    congruence.
  - split; [| done]. intros _.
    apply build_result_ok in E as (H1 & H2 & H3 & H4 & H5). eauto 10.
Qed.

(** X15: when every step succeeds the build stores the formatter and
    the chain, sets status completed and the file name, and leaves the
    [error] of an earlier failed build in the dict; the collaborators were
    called in the order health check, load, chunk, index, assemble. *)
Theorem process_document_success sid path fname env c w :
  ollama_running env = true → load_fails env = None →
  chunk_fails env = None → index_fails env = None →
  assemble env = inr c →
  process_document sid path fname env w
  = (inr (),
     {| document_store :=
          <[sid := {| status := StCompleted;
                      retrieval_chain := Some c;
                      processor := processor (current sid (document_store w));
                      filename := Some fname;
                      error := error (current sid (document_store w));
                      retrieval_chain_formatter := Some FormatInputs |}]>
            (document_store w);
        background_tasks := background_tasks w;
        trace := trace w ++ build_calls path |}).
Proof.
  intros H1 H2 H3 H4 H5. rewrite process_document_eq, alter_touch_insert.
  unfold process_session, build_events, build_calls.
  rewrite (proj2 (build_result_ok env c)) by done.
  rewrite H1, H2, H3, H4. reflexivity.
Qed.

Lemma process_document_success_witness :
  process_document "s" "/tmp/tmpk3v9.pdf" "a.pdf" build_ok uploaded_world
  = (inr (),
     {| document_store :=
          <["s" := {| status := StCompleted;
                      retrieval_chain := Some (Chain 1);
                      processor :=
                        processor (current "s" (document_store uploaded_world));
                      filename := Some "a.pdf";
                      error :=
                        error (current "s" (document_store uploaded_world));
                      retrieval_chain_formatter := Some FormatInputs |}]>
            (document_store uploaded_world);
        background_tasks := background_tasks uploaded_world;
        trace := trace uploaded_world ++ build_calls "/tmp/tmpk3v9.pdf" |}).
Proof. apply process_document_success; reflexivity. Defined.

(** X16: a build that fails swaps nothing in: the session goes to error
    with a message stored, and the chain and the formatter are the ones it
    had before the build (those of the last successful build, if any). *)
Theorem process_document_failure_keeps_chain sid path fname env w :
  status <$> document_store (snd (process_document sid path fname env w)) !! sid
  = Some StError →
  ∃ s, document_store (snd (process_document sid path fname env w)) !! sid
       = Some s
       ∧ is_Some (error s)
       ∧ retrieval_chain s
         = retrieval_chain (current sid (document_store w))
       ∧ retrieval_chain_formatter s
         = retrieval_chain_formatter (current sid (document_store w)).
Proof.
  rewrite process_document_lookup. simpl. unfold process_session.
  destruct (build_result env) as [m | c]; simpl; [| discriminate].
  intros _. eexists. split; [reflexivity |]. simpl. eauto.
Qed.

Lemma process_document_failure_keeps_chain_witness :
  ∃ s, document_store
         (snd (process_document "s" "/tmp/tmp2.pdf" "b.pdf" ollama_down
                 (run sample_render reupload_ops init_world))) !! "s"
       = Some s
       ∧ is_Some (error s)
       ∧ retrieval_chain s
         = retrieval_chain
             (current "s"
                (document_store (run sample_render reupload_ops init_world)))
       ∧ retrieval_chain_formatter s
         = retrieval_chain_formatter
             (current "s"
                (document_store (run sample_render reupload_ops init_world))).
Proof.
  apply process_document_failure_keeps_chain. vm_compute. reflexivity.
Defined.


(** ** Upload followed by its build *)

(** X18: an accepted upload followed by its own build, when every step
    succeeds, leaves the session completed with the new chain and the new
    file name, whatever the session held before (an older chain is
    replaced), and the pending builds are those from before the upload. *)
Theorem rebuild_replaces_chain render k fname temp_name env c w :
  k ≠ "" → is_pdf fname = true →
  ollama_running env = true → load_fails env = None →
  chunk_fails env = None → index_fails env = None →
  assemble env = inr c →
  (∃ s, document_store
          (run render
             [OpUpload (Some k) fname (stored_as temp_name);
              OpRunTask (length (background_tasks w)) env] w) !! k
        = Some s
        ∧ status s = StCompleted
        ∧ retrieval_chain s = Some c
        ∧ filename s = Some fname)
  ∧ background_tasks
      (run render
         [OpUpload (Some k) fname (stored_as temp_name);
          OpRunTask (length (background_tasks w)) env] w)
    = background_tasks w.
Proof.
  intros Hk Hpdf H1 H2 H3 H4 H5. cbn [run step].
  rewrite upload_document_world, (upload_accepted_stored _ _ _ Hk Hpdf).
  unfold run_task. cbn [background_tasks task_session_id].
  rewrite list_lookup_middle by reflexivity.
  rewrite process_document_eq. cbn.
  rewrite (delete_middle (background_tasks w) [] (Task k temp_name fname)).
  rewrite (right_id_L [] (++)). split; [| reflexivity].
  rewrite lookup_alter_touch, decide_True by reflexivity.
  eexists. split; [reflexivity |]. unfold process_session.
  rewrite (proj2 (build_result_ok env c)) by done. done.
Qed.

Lemma rebuild_replaces_chain_witness :
  (∃ s, document_store
          (run sample_render
             [OpUpload (Some "s") "b.pdf" (stored_as "/tmp/tmp2.pdf");
              OpRunTask
                (length (background_tasks
                           (run sample_render completed_ops init_world)))
                {| ollama_running := true; load_fails := None;
                   chunk_fails := None; index_fails := None;
                   assemble := inr (Chain 2) |}]
             (run sample_render completed_ops init_world)) !! "s"
        = Some s
        ∧ status s = StCompleted
        ∧ retrieval_chain s = Some (Chain 2)
        ∧ filename s = Some "b.pdf")
  ∧ background_tasks
      (run sample_render
         [OpUpload (Some "s") "b.pdf" (stored_as "/tmp/tmp2.pdf");
          OpRunTask
            (length (background_tasks
                       (run sample_render completed_ops init_world)))
            {| ollama_running := true; load_fails := None;
               chunk_fails := None; index_fails := None;
               assemble := inr (Chain 2) |}]
         (run sample_render completed_ops init_world))
    = background_tasks (run sample_render completed_ops init_world).
Proof.
  apply rebuild_replaces_chain; try reflexivity. discriminate.
Defined.

(** ** Pending builds and the store *)

Lemma elem_of_delete_other {A} (l : list A) i x y :
  l !! i = Some y → x ∈ l → x ≠ y → x ∈ delete i l.
Proof.
  intros Hi Hx Hne. rewrite (delete_Permutation l i y Hi) in Hx.
  apply elem_of_cons in Hx as [-> | Hx]; done.
Qed.

Lemma process_session_not_uploaded fname env s :
  status (process_session fname env s) ≠ StUploaded.
Proof. unfold process_session. by destruct (build_result env). Qed.

Lemma step_pending render o w :
  (∀ k s, document_store w !! k = Some s → status s = StUploaded →
          ∃ t, t ∈ background_tasks w ∧ task_session_id t = k) →
  ∀ k s, document_store (step render o w) !! k = Some s →
         status s = StUploaded →
         ∃ t, t ∈ background_tasks (step render o w) ∧ task_session_id t = k.
Proof.
  intros Hinv k s. rewrite step_store, step_tasks.
  destruct o as [sid fname io | i env | sid | request out].
  - destruct (upload_accepted sid fname io) as [t |]; [| apply Hinv].
    rewrite lookup_alter_touch. case_decide as Hk.
    + intros _ _. exists t. split; [| exact Hk].
      apply elem_of_app. right. by apply list_elem_of_singleton.
    + intros Hs Hst. destruct (Hinv k s Hs Hst) as (t0 & Ht0 & <-).
      exists t0. split; [| reflexivity]. apply elem_of_app. by left.
  - destruct (background_tasks w !! i) as [t |] eqn:E.
    + rewrite lookup_alter_touch. case_decide as Hk.
      * intros [= <-] Hst. by apply process_session_not_uploaded in Hst.
      * intros Hs Hst. destruct (Hinv k s Hs Hst) as (t0 & Ht0 & <-).
        exists t0. split; [| reflexivity].
        apply (elem_of_delete_other _ _ _ t E Ht0). by intros ->.
    + rewrite (delete_lookup_None _ _ E). apply Hinv.
  - rewrite lookup_touch. case_decide as Hk; [| apply Hinv].
    subst. intros [= <-] Hst. unfold current in Hst.
    destruct (document_store w !! k) as [s0 |] eqn:E; [| discriminate].
    by apply (Hinv k s0).
  - rewrite lookup_touch. case_decide as Hk; [| apply Hinv].
    subst. intros [= <-] Hst. unfold current in Hst.
    destruct (document_store w !! session_id request) as [s0 |] eqn:E;
      [| discriminate].
    by apply (Hinv _ s0).
Qed.

Lemma step_pending_known render o w :
  (∀ t, t ∈ background_tasks w →
        is_Some (document_store w !! task_session_id t)) →
  ∀ t, t ∈ background_tasks (step render o w) →
       is_Some (document_store (step render o w) !! task_session_id t).
Proof.
  intros Hinv t Ht.
  assert (Hold : t ∈ background_tasks w →
                 is_Some (document_store (step render o w)
                            !! task_session_id t)).
  { intros H. by apply step_keeps_sessions, Hinv. }
  rewrite step_tasks in Ht.
  destruct o as [sid fname io | i env | sid | request out]; try by apply Hold.
  - destruct (upload_accepted sid fname io) as [t0 |] eqn:E;
      [| by apply Hold].
    apply elem_of_app in Ht as [Ht | Ht]; [by apply Hold |].
    apply list_elem_of_singleton in Ht as ->.
    rewrite step_store, E, lookup_alter_touch, decide_True by reflexivity.
    eauto.
  - apply Hold. by apply list_elem_of_delete_inv in Ht.
Qed.

(** X19: on every reachable world the pending builds and the store
    agree: a session whose status is uploaded has a build pending for it,
    and every pending build is for a session that is in the store. *)
Theorem pending_builds_consistent render ops :
  (∀ k s, document_store (run render ops init_world) !! k = Some s →
          status s = StUploaded →
          ∃ t, t ∈ background_tasks (run render ops init_world)
               ∧ task_session_id t = k)
  ∧ (∀ t, t ∈ background_tasks (run render ops init_world) →
          is_Some (document_store (run render ops init_world)
                     !! task_session_id t)).
Proof.
  induction ops as [| o ops [IH1 IH2]] using rev_ind.
  - split.
    + intros k s H. simpl in H. by rewrite lookup_empty in H.
    + intros t H. simpl in H. by apply elem_of_nil in H.
  - rewrite run_snoc. split.
    + by apply step_pending.
    + by apply step_pending_known.
Qed.

(** ** Answer keys and the order of the items *)

Lemma dict_get_elem k v items :
  NoDup items.*1 → dict_get k items = Some v ↔ (k, v) ∈ items.
Proof.
  induction items as [| [k' v'] items IH]; simpl; intros Hnd.
  - split; [discriminate | by intros ?%elem_of_nil].
  - apply NoDup_cons in Hnd as [Hk' Hnd]. rewrite elem_of_cons.
    case_bool_decide as Hk.
    + subst k'. split.
      * intros [= ->]. by left.
      * intros [[= ->] | Hin]; [reflexivity |].
        exfalso. apply Hk'. apply list_elem_of_fmap. by exists (k, v).
    + rewrite (IH Hnd). split; [by right |].
      intros [[= -> ->] | Hin]; done.
Qed.

Lemma dict_get_perm k items items' :
  NoDup items.*1 → items ≡ₚ items' → dict_get k items = dict_get k items'.
Proof.
  intros Hnd Hp.
  assert (Hnd' : NoDup items'.*1) by (by rewrite <- Hp).
  destruct (dict_get k items) as [v |] eqn:E.
  - symmetry. apply (dict_get_elem _ _ _ Hnd'). rewrite <- Hp.
    by apply (dict_get_elem _ _ _ Hnd).
  - destruct (dict_get k items') as [v' |] eqn:E'; [| reflexivity].
    apply (dict_get_elem _ _ _ Hnd') in E'. rewrite <- Hp in E'.
    apply (dict_get_elem _ _ _ Hnd) in E'. congruence.
Qed.

Lemma extract_answer_first_present render items :
  extract_answer render (PDict items)
  = default (PStr (render (PDict items))) (first_present answer_keys items).
Proof.
  unfold extract_answer, answer_keys, first_present.
  repeat match goal with
  | |- context [dict_has ?k items] =>
      let E := fresh "E" in
      destruct (dict_has k items) eqn:E;
      [ apply dict_has_get in E as [? ->]; reflexivity
      | apply dict_has_not in E; rewrite E ]
  end.
  reflexivity.
Qed.

(** X20: which answer is extracted depends on the keys, not on the
    order of the items: two dicts with the same items in a different order
    give the same answer as soon as one of the four keys is present. *)
Theorem extract_answer_ignores_item_order render items items' :
  NoDup items.*1 → items ≡ₚ items' →
  is_Some (first_present answer_keys items) →
  extract_answer render (PDict items) = extract_answer render (PDict items').
Proof.
  intros Hnd Hp [v Hv]. rewrite !extract_answer_first_present.
  assert (Heq : first_present answer_keys items
                = first_present answer_keys items').
  { unfold answer_keys, first_present.
    by rewrite !(dict_get_perm _ items items' Hnd Hp). }
  by rewrite <- Heq, Hv.
Qed.

Lemma extract_answer_ignores_item_order_witness :
  extract_answer sample_render
    (PDict [("result", PStr "B"); ("answer", PStr "A")])
  = extract_answer sample_render
      (PDict [("answer", PStr "A"); ("result", PStr "B")]).
Proof.
  apply extract_answer_ignores_item_order.
  - repeat constructor; rewrite ?elem_of_cons, ?elem_of_nil; intros H;
      repeat destruct H as [H | H]; done.
  - apply Permutation_swap.
  - vm_compute. eauto.
Defined.

(** ** The names the upload check accepts *)

Lemma rev_append s1 s2 :
  String.rev (s1 +:+ s2) = String.rev s2 +:+ String.rev s1.
Proof.
  induction s1 as [| c s1 IH].
  - rewrite append_nil_l. symmetry. apply append_nil_r.
  - by rewrite append_cons, !rev_cons, IH, append_assoc.
Qed.

Lemma rev_involutive s : String.rev (String.rev s) = s.
Proof.
  induction s as [| c s IH]; [reflexivity |].
  by rewrite rev_cons, rev_append, IH.
Qed.

Lemma either_true x lo up : either x lo up = true ↔ x = lo ∨ x = up.
Proof.
  unfold either. by rewrite orb_true_iff, !bool_decide_eq_true.
Qed.

Lemma is_pdf_names fname :
  is_pdf fname = true ↔ ∃ stem ext, fname = stem +:+ ext ∧ ext ∈ pdf_extensions.
Proof.
  rewrite is_pdf_spec. unfold ends_with_pdf_ci. split.
  - destruct (String.rev fname) as [| c [| b [| a [| dot r]]]] eqn:E;
      try discriminate.
    rewrite !andb_true_iff, !either_true, bool_decide_eq_true.
    intros [[[Hc Hb] Ha] ->].
    exists (String.rev r), (String "." (String a (String b (String c "")))).
    split.
    + rewrite <- (rev_involutive fname), E, !rev_cons, !append_assoc.
      reflexivity.
    + unfold pdf_extensions.
      destruct Hc as [-> | ->], Hb as [-> | ->], Ha as [-> | ->];
        repeat first [apply list_elem_of_here | apply list_elem_of_further].
  - intros (stem & ext & -> & Hext). rewrite rev_append.
    unfold pdf_extensions in Hext.
    repeat (apply elem_of_cons in Hext as [-> | Hext]; [reflexivity |]).
    by apply elem_of_nil in Hext.
Qed.

(** X21: the upload check [file.filename.lower().endswith('.pdf')]
    accepts exactly the names that end in one of the eight spellings of
    [.pdf]; the part before the extension is free and may be empty. *)
Theorem is_pdf_accepts fname :
  is_pdf fname = true ↔ ∃ stem ext, fname = stem +:+ ext ∧ ext ∈ pdf_extensions.
Proof. apply is_pdf_names. Qed.

(** ** The Streamlit front end *)

Ltac app_unfold_in H :=
  cbv [App.process_block App.index_document App.on_error
       App.push App.record App.set_debug_mode
       App.set_should_rerun App.set_document_processed App.store_chain
       App.messages App.retrieval_chain App.formatter
       App.document_processed App.debug_mode App.should_rerun App.calls
       App.steps App.save_fails App.llm_fails
       ollama_running load_fails chunk_fails index_fails assemble
       negb andb fst snd] in H.

Ltac app_cases_in H :=
  repeat match type of H with
         | context [match ?x with _ => _ end] => is_var x; destruct x
         | context [if ?x then _ else _] => is_var x; destruct x
         end.

Ltac app_fields :=
  cbn [App.messages App.retrieval_chain App.formatter
       App.document_processed App.debug_mode App.should_rerun App.calls
       App.push App.record App.set_debug_mode App.set_should_rerun
       App.set_document_processed App.store_chain App.on_error].

Ltac solve_prefix :=
  repeat apply prefix_app_r; reflexivity.

(** What a processing block can do to the chain: nothing, or store a
    first chain in a state that had not processed a document yet. *)
Lemma process_block_chain file b tb st st' stopped :
  App.process_block file b tb st = (st', stopped) →
  (App.retrieval_chain st' = App.retrieval_chain st
   ∧ App.formatter st' = App.formatter st
   ∧ App.document_processed st' = App.document_processed st)
  ∨ (App.document_processed st = false
     ∧ stopped = false
     ∧ (∃ c, App.retrieval_chain st' = Some c)
     ∧ App.formatter st' = Some FormatInputs
     ∧ App.document_processed st' = true).
Proof.
  destruct st as [ms ch fm dp dm sr cs]. destruct b as [[o l c i a] sv llm].
  intros H. app_unfold_in H. app_cases_in H.
  all: injection H as <- <-.
  all: app_fields.
  all: first [ by left | right; eauto 10 ].
Qed.

Lemma process_block_frame file b tb st st' stopped :
  App.process_block file b tb st = (st', stopped) →
  App.messages st `prefix_of` App.messages st'
  ∧ App.calls st `prefix_of` App.calls st'
  ∧ App.debug_mode st' = App.debug_mode st
  ∧ (stopped = true →
     App.messages st' = App.messages st
     ∧ App.should_rerun st' = App.should_rerun st).
Proof.
  destruct st as [ms ch fm dp dm sr cs]. destruct b as [[o l c i a] sv llm].
  intros H. app_unfold_in H. app_cases_in H.
  all: injection H as <- <-.
  all: app_fields.
  all: split; [solve_prefix |]; split; [solve_prefix |].
  all: split; [reflexivity |]; intros Hs; by try discriminate Hs.
Qed.

Lemma format_inputs_input v :
  format_inputs {[ "input" := v ]} = inr {[ "question" := v ]}.
Proof.
  unfold format_inputs.
  by rewrite lookup_singleton_ne, lookup_singleton_eq.
Qed.

(** The inner [try] in closed form: with or without a stored formatter
    the first call gets [{question: u}]. *)
Lemma get_response_eq c u first second st :
  App.get_response c u first second st
  = match first with
    | inr response =>
        (inr response,
         App.record (App.CallInvoke c {[ "question" := PStr u ]}) st)
    | inl chain_error =>
        if PyStr.contains App.missing_variables (exn_str chain_error)
        then (second,
              App.record (App.CallInvoke c {[ "input" := PStr u ]})
                (App.record (App.CallInvoke c {[ "question" := PStr u ]}) st))
        else (inl chain_error,
              App.record (App.CallInvoke c {[ "question" := PStr u ]}) st)
    end.
Proof.
  unfold App.get_response, App.invoke.
  destruct (App.formatter st) as [[] |]; cbn [apply_formatter];
    rewrite ?format_inputs_input; destruct first; reflexivity.
Qed.

Lemma question_block_frame render describe submit u first second tb st :
  App.messages st
    `prefix_of` App.messages
                  (App.question_block render describe submit u first second
                     tb st)
  ∧ App.calls st
      `prefix_of` App.calls
                    (App.question_block render describe submit u first second
                       tb st)
  ∧ App.retrieval_chain
      (App.question_block render describe submit u first second tb st)
    = App.retrieval_chain st
  ∧ App.formatter
      (App.question_block render describe submit u first second tb st)
    = App.formatter st
  ∧ App.document_processed
      (App.question_block render describe submit u first second tb st)
    = App.document_processed st
  ∧ App.debug_mode
      (App.question_block render describe submit u first second tb st)
    = App.debug_mode st.
Proof.
  unfold App.question_block.
  destruct (submit && negb (bool_decide (u = ""))).
  2: { repeat split; reflexivity. }
  destruct st as [ms ch fm dp dm sr cs]. app_fields.
  destruct ch as [c |].
  2: { app_fields. repeat split; solve_prefix. }
  rewrite get_response_eq.
  destruct first as [e | response];
    [destruct (PyStr.contains _ _); [destruct second as [e2 | response] |] |];
    destruct dm; app_fields; repeat split; solve_prefix.
Qed.

(** X22: while a question is answered the chain is invoked at most
    twice.  The first call gets [{question: u}], with or without a stored
    formatter, and its outcome is the result unless it raised an exception
    whose text contains "Input to PromptTemplate is missing variables";
    only then is there a second call, with [{input: u}], whose outcome is
    the result. *)
Theorem app_chain_invocations c u first second st :
  (fst (App.get_response c u first second st) = first
   ∧ App.calls (snd (App.get_response c u first second st))
     = App.calls st ++ [App.CallInvoke c {[ "question" := PStr u ]}]
   ∧ ∀ e, first = inl e →
          PyStr.contains App.missing_variables (exn_str e) = false)
  ∨ (fst (App.get_response c u first second st) = second
     ∧ App.calls (snd (App.get_response c u first second st))
       = App.calls st ++ [App.CallInvoke c {[ "question" := PStr u ]};
                          App.CallInvoke c {[ "input" := PStr u ]}]
     ∧ ∃ e, first = inl e
            ∧ PyStr.contains App.missing_variables (exn_str e) = true).
Proof.
  rewrite get_response_eq. destruct first as [e | response].
  - destruct (PyStr.contains _ _) eqn:E.
    + right. cbn. rewrite <- (assoc_L (++)). eauto.
    + left. cbn. split; [done |]. split; [done |]. by intros ? [= <-].
  - left. cbn. split; [done |]. split; [done |]. discriminate.
Qed.



(** *** Whole runs *)

(** The state a run hands to the processing block. *)
Lemma script_run_unfold render describe i st0 :
  App.script_run render describe i st0
  = let st1 :=
      App.set_debug_mode (App.debug_checkbox i)
        ((if negb (App.ollama_up i)
          then App.push (App.Message App.System (PStr App.ollama_warning))
          else id)
           (App.record App.CallHealth (default App.init_state st0))) in
    match App.process_block (App.uploaded_file i) (App.build_of i)
            (App.traceback i) st1 with
    | (st2, true) => (st2, App.Stopped)
    | (st2, false) =>
        let st3 :=
          App.question_block render describe (App.submit_button i)
            (App.user_input i) (App.first_invoke i) (App.second_invoke i)
            (App.traceback i) st2 in
        if App.should_rerun st3
        then (App.set_should_rerun false st3, App.Rerun)
        else (st3, App.Done)
    end.
Proof. unfold App.script_run. by destruct (App.ollama_up i). Qed.

Lemma before_block_fields up dbg st :
  let st1 :=
    App.set_debug_mode dbg
      ((if negb up
        then App.push (App.Message App.System (PStr App.ollama_warning))
        else id) (App.record App.CallHealth st)) in
  App.retrieval_chain st1 = App.retrieval_chain st
  ∧ App.formatter st1 = App.formatter st
  ∧ App.document_processed st1 = App.document_processed st
  ∧ App.should_rerun st1 = App.should_rerun st
  ∧ App.messages st `prefix_of` App.messages st1.
Proof.
  destruct up; cbn; repeat split; solve_prefix.
Qed.

(** One run, seen from the start state [st] of the run. *)
Lemma script_run_step render describe i st0 :
  let st := default App.init_state st0 in
  let st' := fst (App.script_run render describe i st0) in
  App.messages st `prefix_of` App.messages st'
  ∧ (App.should_rerun st = false → App.should_rerun st' = false)
  ∧ ((App.retrieval_chain st' = App.retrieval_chain st
      ∧ App.formatter st' = App.formatter st
      ∧ App.document_processed st' = App.document_processed st)
     ∨ (App.document_processed st = false
        ∧ (∃ c, App.retrieval_chain st' = Some c)
        ∧ App.formatter st' = Some FormatInputs
        ∧ App.document_processed st' = true)).
Proof.
  cbn zeta. rewrite script_run_unfold. cbn zeta.
  destruct (before_block_fields (App.ollama_up i) (App.debug_checkbox i)
              (default App.init_state st0)) as (Hc & Hf & Hp & Hr & Hm).
  destruct (App.process_block _ _ _ _) as [st2 stopped] eqn:E.
  pose proof (process_block_chain _ _ _ _ _ _ E) as Hchain.
  destruct (process_block_frame _ _ _ _ _ _ E) as (Hm2 & _ & _ & Hstop).
  rewrite Hc, Hf, Hp in Hchain.
  destruct stopped.
  - destruct (Hstop eq_refl) as [Hms Hsr]. cbn [fst].
    split; [by etrans |]. split; [congruence |].
    destruct Hchain as [H | (H1 & H2 & H3)]; [by left | discriminate].
  - destruct (question_block_frame render describe (App.submit_button i)
                (App.user_input i) (App.first_invoke i) (App.second_invoke i)
                (App.traceback i) st2) as (Hm3 & _ & Hc3 & Hf3 & Hp3 & _).
    set (st3 := App.question_block _ _ _ _ _ _ _ st2) in *.
    assert (Hfin : ∀ stf,
      stf = (if App.should_rerun st3
             then (App.set_should_rerun false st3, App.Rerun)
             else (st3, App.Done)) →
      App.messages (fst stf) = App.messages st3
      ∧ App.retrieval_chain (fst stf) = App.retrieval_chain st3
      ∧ App.formatter (fst stf) = App.formatter st3
      ∧ App.document_processed (fst stf) = App.document_processed st3
      ∧ App.should_rerun (fst stf) = false).
    { intros stf ->. destruct (App.should_rerun st3) eqn:Hsr; cbn; done. }
    destruct (Hfin _ eq_refl) as (-> & -> & -> & -> & ->).
    split; [by do 2 etrans |]. split; [done |].
    rewrite Hc3, Hf3, Hp3.
    destruct Hchain as [H | (H1 & _ & H2 & H3 & H4)]; [by left | by right].
Qed.

Lemma script_run_consistent render describe i st0 :
  app_consistent (default App.init_state st0) →
  app_consistent (fst (App.script_run render describe i st0)).
Proof.
  intros (Hiff & Hfm & Hsr).
  destruct (script_run_step render describe i st0) as (_ & Hr & Hchain).
  cbn zeta in *. split; [| split; [| by apply Hr]].
  - destruct Hchain as [(-> & _ & ->) | (_ & [c ->] & _ & ->)]; [done |].
    split; eauto.
  - destruct Hchain as [(-> & -> & _) | (_ & _ & -> & _)]; eauto.
Qed.

Lemma init_state_consistent : app_consistent App.init_state.
Proof.
  split; [split; [discriminate | by intros [? ?]] |].
  split; [by intros [? ?] | reflexivity].
Qed.

Lemma script_runs_consistent render describe runs st0 :
  app_consistent (default App.init_state st0) →
  app_consistent
    (default App.init_state (App.script_runs render describe runs st0)).
Proof.
  revert st0. induction runs as [| i runs IH]; intros st0 H; [exact H |].
  cbn [App.script_runs]. apply IH.
  change (app_consistent (fst (App.script_run render describe i st0))).
  by apply script_run_consistent.
Qed.

(** X24: between the runs of one browser session [document_processed]
    is true exactly when a chain is stored, a stored chain always has its
    formatter beside it (so the branch for sessions without formatter is
    never taken), and [should_rerun] is false. *)
Theorem app_processed_iff_chain render describe runs :
  app_consistent
    (default App.init_state (App.script_runs render describe runs None)).
Proof. apply script_runs_consistent, init_state_consistent. Qed.

(** X25: once a document has been processed, no later run processes
    another one: the stored chain stays the same through every later run,
    whatever is uploaded. *)
Theorem app_first_document_stays render describe runs s :
  App.document_processed s = true →
  ∃ s', App.script_runs render describe runs (Some s) = Some s'
        ∧ App.retrieval_chain s' = App.retrieval_chain s
        ∧ App.document_processed s' = true.
Proof.
  revert s. induction runs as [| i runs IH]; intros s Hp; [by exists s |].
  cbn [App.script_runs].
  destruct (script_run_step render describe i (Some s)) as (_ & _ & Hchain).
  cbn zeta in Hchain.
  change (default App.init_state (Some s)) with s in Hchain.
  destruct Hchain as [(Hc & _ & Hp') | (Hp' & _)]; [| congruence].
  destruct (IH (fst (App.script_run render describe i (Some s))))
    as (s' & Hs' & Hc' & Hp''); [congruence |].
  exists s'. split; [exact Hs' |]. split; congruence.
Qed.

Lemma app_first_document_stays_witness :
  ∃ s', App.script_runs sample_render sample_describe
          [question_run; good_upload_run] (Some processed_state)
        = Some s'
        ∧ App.retrieval_chain s' = App.retrieval_chain processed_state
        ∧ App.document_processed s' = true.
Proof. apply app_first_document_stays. reflexivity. Defined.

(** X26: the chat log only grows: the messages at the start of a
    sequence of runs are an initial part of the messages at its end. *)
Theorem app_messages_append_only render describe runs s :
  ∃ s', App.script_runs render describe runs (Some s) = Some s'
        ∧ App.messages s `prefix_of` App.messages s'.
Proof.
  revert s. induction runs as [| i runs IH]; intros s; [by exists s |].
  cbn [App.script_runs].
  destruct (script_run_step render describe i (Some s)) as (Hm & _).
  cbn zeta in Hm. change (default App.init_state (Some s)) with s in Hm.
  destruct (IH (fst (App.script_run render describe i (Some s))))
    as (s' & Hs' & Hm').
  exists s'. split; [exact Hs' | by etrans].
Qed.

Lemma question_block_keeps_rerun render describe submit u first second tb st :
  App.should_rerun st = true →
  App.should_rerun
    (App.question_block render describe submit u first second tb st)
  = true.
Proof.
  intros Hsr. unfold App.question_block.
  destruct (submit && negb (bool_decide (u = ""))); [| exact Hsr].
  destruct st as [ms ch fm dp dm sr cs]. app_fields.
  destruct ch as [c |]; [| reflexivity].
  rewrite get_response_eq.
  destruct first as [e | response];
    [destruct (PyStr.contains _ _); [destruct second as [e2 | response] |] |];
    destruct dm; reflexivity.
Qed.

Lemma process_block_caught name b tb st m :
  App.document_processed st = false →
  ollama_running (App.steps b) = true →
  caught_failure b = Some m →
  ∃ st', App.process_block (Some name) b tb st = (st', false)
         ∧ App.should_rerun st' = true
         ∧ App.document_processed st' = false
         ∧ App.error_message (External m) ∈ App.messages st'.
Proof.
  destruct st as [ms ch fm dp dm sr cs]. destruct b as [[o l c i a] sv llm].
  cbn [App.document_processed App.steps ollama_running].
  intros -> -> H.
  cbv [caught_failure App.save_fails App.steps App.llm_fails load_fails
       chunk_fails index_fails assemble] in H.
  app_cases_in H; try discriminate H; injection H as ->.
  all: destruct dm; eexists; (split; [reflexivity |]); app_fields.
  all: split; [reflexivity |]; split; [reflexivity |].
  all: rewrite ?elem_of_app, !list_elem_of_singleton; eauto.
Qed.

(** X27: a document whose processing fails in a caught step (saving,
    loading, chunking, indexing or chain assembly) is retried by the next
    run: the run appends the error message, leaves the document
    unprocessed and ends in [st.rerun()], so the script starts over with
    the same upload still pending. *)
Theorem app_failed_build_retries render describe i st0 name m :
  App.document_processed (default App.init_state st0) = false →
  App.uploaded_file i = Some name →
  ollama_running (App.steps (App.build_of i)) = true →
  caught_failure (App.build_of i) = Some m →
  snd (App.script_run render describe i st0) = App.Rerun
  ∧ App.document_processed (fst (App.script_run render describe i st0))
    = false
  ∧ App.error_message (External m)
    ∈ App.messages (fst (App.script_run render describe i st0)).
Proof.
  intros Hp Hfile Hup Hfail. rewrite script_run_unfold. cbn zeta.
  destruct (before_block_fields (App.ollama_up i) (App.debug_checkbox i)
              (default App.init_state st0)) as (_ & _ & Hp1 & _ & _).
  rewrite Hfile.
  destruct (process_block_caught name (App.build_of i) (App.traceback i) _ m
              (eq_trans Hp1 Hp) Hup Hfail) as (st2 & -> & Hsr & Hp2 & Hin).
  destruct (question_block_frame render describe (App.submit_button i)
              (App.user_input i) (App.first_invoke i) (App.second_invoke i)
              (App.traceback i) st2) as ([k Hm3] & _ & _ & _ & Hp3 & _).
  rewrite (question_block_keeps_rerun _ _ _ _ _ _ _ _ Hsr).
  cbn [fst snd App.set_should_rerun App.document_processed App.messages].
  split; [reflexivity |]. split; [congruence |].
  rewrite Hm3. apply elem_of_app. by left.
Qed.

Lemma app_failed_build_retries_witness :
  snd (App.script_run sample_render sample_describe failing_upload_run None)
  = App.Rerun
  ∧ App.document_processed
      (fst (App.script_run sample_render sample_describe failing_upload_run
              None))
    = false
  ∧ App.error_message (External "not a PDF")
    ∈ App.messages
        (fst (App.script_run sample_render sample_describe failing_upload_run
                None)).
Proof.
  apply (app_failed_build_retries _ _ failing_upload_run None "a.pdf");
    reflexivity.
Defined.

(** X28: the warning about Ollama is appended on every run in which the
    service is down, also when the log already shows it: the messages
    after such a run are the earlier ones, the warning, and what the run
    added after it. *)
Theorem app_warning_every_run render describe i st0 :
  App.ollama_up i = false →
  ∃ rest,
    App.messages (fst (App.script_run render describe i st0))
    = App.messages (default App.init_state st0)
      ++ App.Message App.System (PStr App.ollama_warning) :: rest.
Proof.
  intros Hup. rewrite script_run_unfold, Hup. cbn zeta. cbn [negb].
  set (st1 := App.set_debug_mode _ _).
  assert (Hm1 : App.messages st1
                = App.messages (default App.init_state st0)
                  ++ [App.Message App.System (PStr App.ollama_warning)])
    by reflexivity.
  destruct (App.process_block _ _ _ st1) as [st2 stopped] eqn:E.
  destruct (process_block_frame _ _ _ _ _ _ E) as ([k2 Hm2] & _).
  rewrite Hm1, <- (assoc_L (++)) in Hm2.
  destruct stopped; [by eauto |].
  destruct (question_block_frame render describe (App.submit_button i)
              (App.user_input i) (App.first_invoke i) (App.second_invoke i)
              (App.traceback i) st2) as ([k3 Hm3] & _).
  exists (k2 ++ k3).
  assert (Hgoal : ∀ st3 : App.state,
    App.messages
      (fst (if App.should_rerun st3
            then (App.set_should_rerun false st3, App.Rerun)
            else (st3, App.Done)))
    = App.messages st3) by (intros st3; by destruct (App.should_rerun st3)).
  rewrite Hgoal, Hm3, Hm2, <- (assoc_L (++)). reflexivity.
Qed.

Lemma app_warning_every_run_witness :
  ∃ rest,
    App.messages
      (fst (App.script_run sample_render sample_describe question_run
              (Some processed_state)))
    = App.messages (default App.init_state (Some processed_state))
      ++ App.Message App.System (PStr App.ollama_warning) :: rest.
Proof. apply app_warning_every_run. reflexivity. Defined.
